(** * IGI graph viewer: the data-shaping pipeline of [graph_gen_web_app.py]

    A shallow embedding of [get_edges], [prepare_node_colors_and_sizes],
    [prepare_hover_text], [plot_3d] and [adjust_node_height_data], and the
    properties of the specification checked against them.

    Modelling choices.
    - A node is the Python [dict] that [json.loads] produced: a finite map
      from key strings to values ([gmap string value]).  Whether a key is
      present matters ([KeyError], the ["edges" in item] guard), so no field
      is made mandatory by the type.
    - A value is a JSON scalar or array: [None], a [bool], an [int], a [str]
      or a [list].  Numbers are Python integers; strings hold ASCII text.
    - An uncaught Python exception is the [Raise] case of [result].
    - [logging] and [st.plotly_chart] act on an explicit [world].
    - The rendering backend checks the arguments of a trace when the trace
      is built and raises [ValueError] for those it rejects.  The backend is
      not part of the sources: its check is a parameter, [accepts].
    - [py_str] and [py_mul] leave out the interpreter's own limits (the
      conversion of an integer of more than 4300 digits, a sequence repeated
      beyond the machine's range); a theorem that lists the exceptions of a
      builder states the records and factors it is about. *)

From Stdlib Require Import ZArith QArith Ascii String.
From stdpp Require Import gmap strings list fin_maps pretty.

Open Scope Z_scope.

(** ** Values *)

#[warnings="-register-all"]
Inductive value : Type :=
  | VNone
  | VBool (b : bool)
  | VInt (n : Z)
  | VStr (s : string)
  | VList (l : list value).

(** A node record, as parsed from JSON. *)
Abbreviation node := (gmap string value).

(** ** Exceptions *)

Inductive exn : Type :=
  | KeyError (key : string)
  | TypeError
  | ValueError.

Inductive result (A : Type) : Type :=
  | Ok (a : A)
  | Raise (e : exn).
Arguments Ok {A} a.
Arguments Raise {A} e.

(** Sequencing: the first exception ends the computation. *)
#[global] Instance result_ret : MRet result := @Ok.
#[global] Instance result_bind : MBind result := λ A B k r,
  match r with
  | Ok a => k a
  | Raise e => Raise e
  end.

(** [for x in l: acc = body(acc, x)], stopping at the first exception. *)
Fixpoint for_each {A S} (body : S → A → result S) (acc : S) (l : list A)
  : result S :=
  match l with
  | [] => Ok acc
  | x :: l' => acc' ← body acc x; for_each body acc' l'
  end.

(** [[f(x) for x in l]]. *)
Fixpoint comprehension {A B} (f : A → result B) (l : list A)
  : result (list B) :=
  match l with
  | [] => Ok []
  | x :: l' => y ← f x; ys ← comprehension f l'; Ok (y :: ys)
  end.

Definition is_ok {A} (r : result A) : bool :=
  match r with Ok _ => true | Raise _ => false end.

(** ** Python primitives on values *)

(** [item[key]] on a dict. *)
Definition getitem (item : node) (key : string) : result value :=
  match item !! key with
  | Some v => Ok v
  | None => Raise (KeyError key)
  end.

(** [bool(d)] for a dict [d]: true unless it is empty. *)
Definition dict_truthy (d : node) : bool := negb (Nat.eqb (size d) 0).

(** The integer a [bool] or [int] stands for in arithmetic and comparison. *)
Definition as_int (v : value) : option Z :=
  match v with
  | VBool b => Some (if b then 1 else 0)
  | VInt n => Some n
  | _ => None
  end.

(** [a == b]. *)
Fixpoint py_eq (a b : value) : bool :=
  match a, b with
  | VNone, VNone => true
  | VStr s, VStr t => String.eqb s t
  | VList l, VList m =>
      (fix all2 (l : list value) (m : list value) : bool :=
         match l, m with
         | [], [] => true
         | x :: l', y :: m' => py_eq x y && all2 l' m'
         | _, _ => false
         end) l m
  | (VBool _ | VInt _), (VBool _ | VInt _) =>
      match as_int a, as_int b with
      | Some i, Some j => Z.eqb i j
      | _, _ => false
      end
  | _, _ => false
  end.

(** [iter(v)]: the elements a [for] loop visits. *)
Definition chars (s : string) : list value :=
  (λ c, VStr (String c "")) <$> String.list_ascii_of_string s.

Definition py_iter (v : value) : result (list value) :=
  match v with
  | VList l => Ok l
  | VStr s => Ok (chars s)
  | _ => Raise TypeError
  end.

(** [sep.join(parts)]. *)
Fixpoint join (sep : string) (parts : list string) : string :=
  match parts with
  | [] => ""
  | [p] => p
  | p :: rest => p +:+ sep +:+ join sep rest
  end.

(** [repr] of a [str]: single quotes unless the text has a single quote and
    no double quote; backslash, the quote and control characters escaped. *)
Definition hex_digit (n : N) : ascii :=
  match n with
  | 0 => "0" | 1 => "1" | 2 => "2" | 3 => "3" | 4 => "4" | 5 => "5"
  | 6 => "6" | 7 => "7" | 8 => "8" | 9 => "9" | 10 => "a" | 11 => "b"
  | 12 => "c" | 13 => "d" | 14 => "e" | _ => "f"
  end%N%char.

Definition double_quote : ascii := Ascii.ascii_of_nat 34.

Definition has_char (c : ascii) (s : string) : bool :=
  existsb (Ascii.eqb c) (String.list_ascii_of_string s).

Definition repr_char (quote c : ascii) : string :=
  let n := N_of_ascii c in
  if Ascii.eqb c quote || Ascii.eqb c "\"%char then String "\"%char (String c "")
  else if N.eqb n 9 then "\t"
  else if N.eqb n 10 then "\n"
  else if N.eqb n 13 then "\r"
  else if N.ltb n 32 || N.eqb n 127
       then "\x" +:+ String (hex_digit (n / 16)) (String (hex_digit (n mod 16)) "")
  else String c "".

Definition repr_str (s : string) : string :=
  let quote :=
    if has_char "'"%char s && negb (has_char double_quote s)
    then double_quote else "'"%char in
  String quote (String.concat "" (repr_char quote <$> String.list_ascii_of_string s))
  +:+ String quote "".

(** [repr(v)], and [str(v)], which differs on a top-level [str] only. *)
Fixpoint py_repr (v : value) : string :=
  match v with
  | VNone => "None"
  | VBool b => if b then "True" else "False"
  | VInt n => pretty n
  | VStr s => repr_str s
  | VList l => "[" +:+ join ", " (map py_repr l) +:+ "]"
  end.

Definition py_str (v : value) : string :=
  match v with
  | VStr s => s
  | _ => py_repr v
  end.

(** [s * n] for a sequence: [n] copies, none when [n <= 0]. *)
Fixpoint str_times (s : string) (n : nat) : string :=
  match n with
  | O => ""
  | S n' => s +:+ str_times s n'
  end.

Fixpoint list_times {A} (l : list A) (n : nat) : list A :=
  match n with
  | O => []
  | S n' => l ++ list_times l n'
  end.

(** [a * b]. *)
Definition py_mul (a b : value) : result value :=
  match as_int a, as_int b with
  | Some i, Some j => Ok (VInt (i * j))
  | Some i, None =>
      match b with
      | VStr s => Ok (VStr (str_times s (Z.to_nat i)))
      | VList l => Ok (VList (list_times l (Z.to_nat i)))
      | _ => Raise TypeError
      end
  | None, Some j =>
      match a with
      | VStr s => Ok (VStr (str_times s (Z.to_nat j)))
      | VList l => Ok (VList (list_times l (Z.to_nat j)))
      | _ => Raise TypeError
      end
  | None, None => Raise TypeError
  end.

(** ** [get_edges] *)

Definition coords : Type := list value * list value * list value.

(** [next((node for node in data if node["id"] == edge), None)] *)
Fixpoint next_node (data : list node) (edge : value) : result (option node) :=
  match data with
  | [] => Ok None
  | node :: rest =>
      id ← getitem node "id";
      if py_eq id edge then Ok (Some node) else next_node rest edge
  end.

(** The three [extend] calls of one resolved edge. *)
Definition extend_edge (item target_node : node) (acc : coords)
  : result coords :=
  let '(edge_x, edge_y, edge_z) := acc in
  sx ← getitem item "x"; tx ← getitem target_node "x";
  let edge_x := edge_x ++ [sx; tx; VNone] in
  sy ← getitem item "y"; ty ← getitem target_node "y";
  let edge_y := edge_y ++ [sy; ty; VNone] in
  sz ← getitem item "z"; tz ← getitem target_node "z";
  let edge_z := edge_z ++ [sz; tz; VNone] in
  Ok (edge_x, edge_y, edge_z).

(** The body of [for edge in item["edges"]]. *)
Definition visit_edge (data : list node) (item : node) (acc : coords)
    (edge : value) : result coords :=
  target_node ← next_node data edge;
  match target_node with
  | Some target_node =>
      if dict_truthy target_node then extend_edge item target_node acc
      else Ok acc
  | None => Ok acc
  end.

(** The body of [for item in data]. *)
Definition visit_item (data : list node) (acc : coords) (item : node)
  : result coords :=
  match item !! "edges" with
  | Some edges =>
      edges ← py_iter edges; for_each (visit_edge data item) acc edges
  | None => Ok acc
  end.

(** The outer loop over [items], with targets looked up in [data]; the
    source runs it with [items = data]. *)
Definition get_edges_over (data items : list node) : result coords :=
  for_each (visit_item data) ([], [], []) items.

Definition get_edges (data : list node) : result coords :=
  get_edges_over data data.

(** ** The material tables

    [material_mapping] and [material_colors] are imported from [graph_const],
    which is not part of the sources at hand.  They are taken as parameters:
    a dict from material codes to material-class names and a dict from
    material-class names to colours. *)

(** A Python [dict] keyed by values, in insertion order, keys distinct. *)
Definition hashable (v : value) : bool :=
  match v with
  | VList _ => false
  | _ => true
  end.

Fixpoint lookup_key {V} (d : list (value * V)) (key : value) : option V :=
  match d with
  | [] => None
  | (k, v) :: d' => if py_eq k key then Some v else lookup_key d' key
  end.

(** [d.get(key, fallback)]; an unhashable key is a [TypeError]. *)
Definition dict_get {V} (d : list (value * V)) (key : value) (fallback : V)
  : result V :=
  if hashable key then Ok (default fallback (lookup_key d key))
  else Raise TypeError.

Section Builders.

Variable material_mapping : list (value * string).
Variable material_colors : gmap string string.

(** ** [prepare_node_colors_and_sizes] *)

Definition style_item (node_radius_size : value)
    (acc : list string * list value) (item : node)
  : result (list string * list value) :=
  let '(colors, sizes) := acc in
  material ← getitem item "material";
  class ← dict_get material_mapping material "UNKNOWN";
  let color := default "purple" (material_colors !! class) in
  let colors := colors ++ [color] in
  radius ← getitem item "radius";
  size ← py_mul radius node_radius_size;
  Ok (colors, sizes ++ [size]).

Definition prepare_node_colors_and_sizes (data : list node)
    (node_radius_size : value) : result (list string * list value) :=
  for_each (style_item node_radius_size) ([], []) data.

(** ** [prepare_hover_text] *)

Definition hover_item
    (show_links show_material show_gamma_radius show_criteria : bool)
    (item : node) : result string :=
  id ← getitem item "id";
  let text := "Node ID: " +:+ py_str id in
  text ← (if show_links then
            edges ← getitem item "edges";
            edges ← py_iter edges;
            Ok (text +:+ "<br>Links: " +:+ join ", " (py_str <$> edges))
          else Ok text);
  text ← (if show_material then
            material ← getitem item "material";
            Ok (text +:+ "<br>Material: " +:+ py_str material)
          else Ok text);
  text ← (if show_gamma_radius then
            gamma ← getitem item "gamma";
            radius ← getitem item "radius";
            Ok (text +:+ "<br>Gamma: " +:+ py_str gamma
                     +:+ "<br>Radius: " +:+ py_str radius)
          else Ok text);
  text ← (if show_criteria then
            criteria ← getitem item "criteria";
            Ok (text +:+ "<br>Criteria: " +:+ py_str criteria)
          else Ok text);
  Ok text.

Definition prepare_hover_text (data : list node)
    (show_links show_material show_gamma_radius show_criteria : bool)
  : result (list string) :=
  for_each
    (λ text_data item,
       text ← hover_item show_links show_material show_gamma_radius
                show_criteria item;
       Ok (text_data ++ [text]))
    [] data.

(** ** The rendering backend and the log

    [go.Scatter3d] and [go.Mesh3d] belong to the rendering backend, which
    is not part of the sources.  A trace records the arguments it was built
    from; the check the backend makes of these arguments when a trace is
    built, raising [ValueError] for those it rejects (a negative marker
    size, a symbol or colour it does not know), is the parameter [accepts]
    below. *)

Record marker : Type := Marker {
  marker_color : list string;
  marker_size : list value;
  marker_symbol : option string;
  marker_sizemode : string
}.

Inductive trace : Type :=
  | Scatter3d (x y z : list value) (mode : string) (mk : option marker)
      (line_color : option string) (text : option (list string))
      (hoverinfo : option string)
  | Mesh3d (x y z : list value) (opacity : Q) (hoverinfo : string)
      (hovertext : list string) (intensity : list Z) (colorscale : string)
      (cmin cmax : Z).

Record layout : Type := Layout {
  xaxis_title : option string;
  yaxis_title : option string;
  zaxis_title : option string;
  aspectmode : option string;
  width : option Z;
  height : option Z
}.

Record figure : Type := Figure {
  fig_data : list trace;
  fig_layout : layout
}.

Definition add_trace (fig : figure) (t : trace) : figure :=
  Figure (fig_data fig ++ [t]) (fig_layout fig).

Inductive level : Type := INFO | ERROR.

(** What a call leaves behind: the records written to the log file and the
    figures handed to [st.plotly_chart]. *)
Record world : Type := World {
  log : list (level * string);
  charts : list figure
}.

Definition io (A : Type) : Type := world → result A * world.

#[global] Instance io_ret : MRet io := λ A a w, (Ok a, w).
#[global] Instance io_bind : MBind io := λ A B k m w,
  match m w with
  | (Ok a, w') => k a w'
  | (Raise e, w') => (Raise e, w')
  end.

Definition lift {A} (r : result A) : io A := λ w, (r, w).

Definition logging (lvl : level) (msg : string) : io unit :=
  λ w, (Ok (), World (log w ++ [(lvl, msg)]) (charts w)).

Definition st_plotly_chart (fig : figure) : io unit :=
  λ w, (Ok (), World (log w) (charts w ++ [fig])).

(** ** [plot_3d] *)

(** The traces the branches of the [if]/[elif] chain build, in the order
    they build them; [None] is the [else] branch. *)
Definition mode_traces (plot_type : string) (symbol : option string)
    (x_data y_data z_data : list value) (hover_texts colors : list string)
    (sizes : list value) : option (list trace) :=
  if String.eqb plot_type "scatter" then
    Some [Scatter3d x_data y_data z_data "markers"
            (Some (Marker colors sizes symbol "diameter")) None
            (Some hover_texts) (Some "text")]
  else if String.eqb plot_type "surface" then
    Some [Scatter3d x_data y_data z_data "markers"
            (Some (Marker colors sizes None "diameter")) None
            (Some hover_texts) (Some "text")]
  else if String.eqb plot_type "line" then
    Some [Scatter3d x_data y_data z_data "lines+markers"
            (Some (Marker colors sizes None "diameter")) (Some "red")
            (Some hover_texts) (Some "text")]
  else if String.eqb plot_type "mesh" then
    let intensity := Z.of_nat <$> seq 0 (length colors) in
    Some [Mesh3d x_data y_data z_data (1 # 2) "text" hover_texts intensity
            "Viridis" 0 (Z.of_nat (length colors) - 1);
          Scatter3d x_data y_data z_data "markers"
            (Some (Marker colors sizes None "diameter")) None
            (Some hover_texts) (Some "text")]
  else None.

Definition new_figure : figure :=
  Figure [] (Layout (Some "X") (Some "Y") (Some "Z") (Some "data")
               (Some 800) (Some 600)).

Variable accepts : trace → bool.

(** [fig.add_trace(go.Scatter3d(...))], and the same for [go.Mesh3d]: the
    trace is built, which raises when the backend rejects its arguments,
    and then added to the figure. *)
Definition add_checked (fig : figure) (t : trace) : result figure :=
  if accepts t then Ok (add_trace fig t) else Raise ValueError.

Definition plot_3d (data : list node) (plot_type : string)
    (symbol : option string)
    (show_links show_material show_gamma_radius show_criteria : bool)
    (node_radius_size : value) : io unit :=
  _ ← logging INFO ("Generating 3D " +:+ plot_type +:+ " plot");
  x_data ← lift (comprehension (λ item, getitem item "x") data);
  y_data ← lift (comprehension (λ item, getitem item "y") data);
  z_data ← lift (comprehension (λ item, getitem item "z") data);
  edges ← lift (if show_links then get_edges data else Ok ([], [], []));
  let '(edge_x, edge_y, edge_z) := edges in
  hover_texts ← lift (prepare_hover_text data show_links show_material
                        show_gamma_radius show_criteria);
  styles ← lift (prepare_node_colors_and_sizes data node_radius_size);
  let '(colors, sizes) := styles in
  let fig := new_figure in
  match mode_traces plot_type symbol x_data y_data z_data hover_texts
          colors sizes with
  | Some traces =>
      fig ← lift (for_each add_checked fig traces);
      fig ← lift (if show_links then
                    add_checked fig
                      (Scatter3d edge_x edge_y edge_z "lines" None
                         (Some "red") None None)
                  else Ok fig);
      _ ← st_plotly_chart fig;
      logging INFO ("3D " +:+ plot_type +:+ " plot generated successfully")
  | None =>
      logging ERROR ("Invalid plot type: " +:+ plot_type)
  end.

End Builders.

(** ** [adjust_node_height_data]

    The source overwrites [item["z"]] in each dict of [data] and returns
    [data] itself; the model gives the contents of that list after the
    call. *)
Definition adjust_node_height_data (data : list node) (node_height : bool)
  : list node :=
  if negb node_height then (λ item, <["z" := VInt 0]> item) <$> data
  else data.

(** ** [main]: the session settings

    [st.session_state] outlives a run of the script.  Each
    [if key not in st.session_state] of [main] gives a setting its default
    when the store does not have it yet. *)
Definition session_default (key : string) (v : value)
    (session_state : gmap string value) : gmap string value :=
  match session_state !! key with
  | Some _ => session_state
  | None => <[key := v]> session_state
  end.

Definition init_session_state (session_state : gmap string value)
  : gmap string value :=
  let session_state := session_default "show_links" (VBool false)
                         session_state in
  let session_state := session_default "show_material" (VBool false)
                         session_state in
  let session_state := session_default "show_gamma_radius" (VBool false)
                         session_state in
  let session_state := session_default "show_criteria" (VBool false)
                         session_state in
  let session_state := session_default "show_table_data" (VBool false)
                         session_state in
  let session_state := session_default "node_height" (VBool false)
                         session_state in
  let session_state := session_default "node_radius_size" (VInt 50)
                         session_state in
  let session_state := session_default "graph_type" (VStr "3D Scatter")
                         session_state in
  session_default "node_symbol" (VStr "circle") session_state.

(** ** [main]: from the parsed records to the graph

    The settings as the widgets of the sidebar left them: the checkboxes
    give booleans, the slider an integer, the select boxes strings. *)
Record settings : Type := Settings {
  ss_show_links : bool;
  ss_show_material : bool;
  ss_show_gamma_radius : bool;
  ss_show_criteria : bool;
  ss_show_table_data : bool;
  ss_node_height : bool;
  ss_node_radius_size : Z;
  ss_graph_type : string;
  ss_node_symbol : string
}.

(** What [main] puts on the page besides the charts. *)
Inductive element : Type :=
  | Subheader (title : string)
  | Dataframe (rows : list node).

Record page : Type := Page {
  page_world : world;
  page_elements : list element
}.

Section Main.

Variable material_mapping : list (value * string).
Variable material_colors : gmap string string.
Variable accepts : trace → bool.

(** The call [plot_3d(data, plot_type=..., symbol=node_symbol, ...)] that
    every branch of the dispatch makes. *)
Definition plot_with (ss : settings) (data : list node) (plot_type : string)
    (pg : page) : result unit * page :=
  let '(r, w) :=
    plot_3d material_mapping material_colors accepts data plot_type
      (Some (ss_node_symbol ss)) (ss_show_links ss) (ss_show_material ss)
      (ss_show_gamma_radius ss) (ss_show_criteria ss)
      (VInt (ss_node_radius_size ss)) (page_world pg) in
  (r, Page w (page_elements pg)).

(** The branch of [main] that follows a successful parse, from
    [data = adjust_node_height_data(data, ...)] to the dispatch on the graph
    type; [data] is what [json.loads] returned. *)
Definition show_graph (ss : settings) (data : list node) (pg : page)
  : result unit * page :=
  let data := adjust_node_height_data data (ss_node_height ss) in
  let pg :=
    if ss_show_table_data ss then
      Page (page_world pg)
        (page_elements pg ++ [Subheader "Graph Data"; Dataframe data])
    else pg in
  if String.eqb (ss_graph_type ss) "3D Scatter" then
    plot_with ss data "scatter" pg
  else if String.eqb (ss_graph_type ss) "3D Surface" then
    plot_with ss data "surface" pg
  else if String.eqb (ss_graph_type ss) "3D Line" then
    plot_with ss data "line" pg
  else if String.eqb (ss_graph_type ss) "3D Mesh" then
    plot_with ss data "mesh" pg
  else (Ok tt, pg).

End Main.

(** ** Shapes of input records

    The predicates the statements below are phrased with. *)

#[global] Instance value_inhabited : Inhabited value := populate VNone.

Definition has_key (key : string) (item : node) : bool :=
  match item !! key with
  | Some _ => true
  | None => false
  end.

(** The ids a record's adjacency entry lists; none when the key is absent. *)
Definition edges_of (item : node) : result (list value) :=
  match item !! "edges" with
  | Some edges => py_iter edges
  | None => Ok []
  end.

Definition edge_ids (item : node) : list value :=
  match edges_of item with
  | Ok l => l
  | Raise _ => []
  end.

(** A record [get_edges] can draw from: it has an id and a position, and its
    adjacency entry, when present, is a sequence. *)
Definition drawable (item : node) : bool :=
  has_key "id" item && has_key "x" item && has_key "y" item
  && has_key "z" item && is_ok (edges_of item).

(** The record with an empty adjacency list where it has none. *)
Definition with_empty_edges (item : node) : node :=
  match item !! "edges" with
  | Some _ => item
  | None => <["edges" := VList []]> item
  end.

(** [edge] names the record [n]. *)
Definition matches (edge : value) (n : node) : bool :=
  match n !! "id" with
  | Some id => py_eq id edge
  | None => false
  end.

Definition target (data : list node) (edge : value) : option node :=
  find (matches edge) data.

Definition resolvable (data : list node) (edge : value) : bool :=
  existsb (matches edge) data.

(** What one edge occurrence adds to the sequence of coordinate [key]. *)
Definition segment (key : string) (data : list node) (item : node)
    (edge : value) : list value :=
  match target data edge with
  | Some t => [item !!! key; t !!! key; VNone]
  | None => []
  end.

Definition segments (key : string) (data items : list node) : list value :=
  flat_map (λ item, flat_map (segment key data item) (edge_ids item)) items.

Definition total_edge_count (data : list node) : nat :=
  sum_list_with (λ item, length (edge_ids item)) data.

Definition resolved_edge_count (data : list node) : nat :=
  sum_list_with
    (λ item, length (List.filter (resolvable data) (edge_ids item))) data.

(** A record [prepare_node_colors_and_sizes] can style: its material can
    be a dict key and its radius is a number. *)
Definition numeric (v : value) : bool :=
  match as_int v with
  | Some _ => true
  | None => false
  end.

Definition stylable (item : node) : bool :=
  match item !! "material", item !! "radius" with
  | Some material, Some radius => hashable material && numeric radius
  | _, _ => false
  end.

(** The sections of a hover text, as the specification lists them: an
    ordered list of formatters, one per enabled flag, whose results are
    joined with the line-break marker after the node-id header. *)
Definition links_section (item : node) : result string :=
  edges ← getitem item "edges";
  edges ← py_iter edges;
  Ok ("Links: " +:+ join ", " (py_str <$> edges)).

Definition material_section (item : node) : result string :=
  material ← getitem item "material";
  Ok ("Material: " +:+ py_str material).

Definition gamma_radius_section (item : node) : result string :=
  gamma ← getitem item "gamma";
  radius ← getitem item "radius";
  Ok ("Gamma: " +:+ py_str gamma +:+ "<br>Radius: " +:+ py_str radius).

Definition criteria_section (item : node) : result string :=
  criteria ← getitem item "criteria";
  Ok ("Criteria: " +:+ py_str criteria).

Definition enabled_sections
    (show_links show_material show_gamma_radius show_criteria : bool)
  : list (node → result string) :=
  (if show_links then [links_section] else [])
  ++ (if show_material then [material_section] else [])
  ++ (if show_gamma_radius then [gamma_radius_section] else [])
  ++ (if show_criteria then [criteria_section] else []).

Definition hover_text_spec
    (show_links show_material show_gamma_radius show_criteria : bool)
    (item : node) : result string :=
  id ← getitem item "id";
  sections ← comprehension (λ section, section item)
               (enabled_sections show_links show_material show_gamma_radius
                  show_criteria);
  Ok (join "<br>" (("Node ID: " +:+ py_str id) :: sections)).

(** A record whose hover text can be composed under the given flags. *)
Definition describable
    (show_links show_material show_gamma_radius show_criteria : bool)
    (item : node) : bool :=
  has_key "id" item
  && (negb show_links || is_ok (getitem item "edges" ≫= py_iter))
  && (negb show_material || has_key "material" item)
  && (negb show_gamma_radius
      || (has_key "gamma" item && has_key "radius" item))
  && (negb show_criteria || has_key "criteria" item).

(** A record [plot_3d] can render under the given flags. *)
Definition renderable
    (show_links show_material show_gamma_radius show_criteria : bool)
    (item : node) : bool :=
  has_key "x" item && has_key "y" item && has_key "z" item
  && describable show_links show_material show_gamma_radius show_criteria item
  && stylable item.

Definition recognized (plot_type : string) : bool :=
  existsb (String.eqb plot_type) ["scatter"; "surface"; "line"; "mesh"].

(** The trace [plot_3d] draws the edges with. *)
Definition edge_trace (edges : coords) : trace :=
  let '(edge_x, edge_y, edge_z) := edges in
  Scatter3d edge_x edge_y edge_z "lines" None (Some "red") None None.

(** Output lengths agree after every iteration of both loops. *)
Definition balanced (acc : coords) : Prop :=
  let '(xs, ys, zs) := acc in length xs = length ys ∧ length ys = length zs.

(** What the body of the loop of [prepare_node_colors_and_sizes] computes
    for one record. *)
Definition node_style (material_mapping : list (value * string))
    (material_colors : gmap string string) (node_radius_size : value)
    (item : node)
  : result (string * value) :=
  material ← getitem item "material";
  class ← dict_get material_mapping material "UNKNOWN";
  radius ← getitem item "radius";
  size ← py_mul radius node_radius_size;
  Ok (default "purple" (material_colors !! class), size).

(** ** Example records *)

Definition node_1 : node :=
  {[ "id" := VInt 1; "x" := VInt 0; "y" := VInt 0; "z" := VInt 0;
     "material" := VStr "A"; "edges" := VList [VInt 2] ]}.

Definition node_2 : node :=
  {[ "id" := VInt 2; "x" := VInt 1; "y" := VInt 1; "z" := VInt 1;
     "material" := VStr "B"; "edges" := VList [] ]}.

Definition node_3 : node :=
  {[ "id" := VInt 3; "x" := VInt 7; "y" := VInt 8; "z" := VInt 9;
     "edges" := VList [VInt 42; VInt 1] ]}.

Definition bare_node : node :=
  {[ "id" := VInt 1; "x" := VInt 0; "y" := VInt 0; "z" := VInt 0 ]}.

Definition node_4 : node :=
  {[ "id" := VInt 4; "x" := VInt 1; "y" := VInt 2; "z" := VInt 3;
     "material" := VStr "A"; "gamma" := VInt 2; "radius" := VInt 3;
     "criteria" := VStr "none"; "edges" := VList [VInt 4] ]}.

(** ** Vocabulary of the further properties *)

(** A source record and a target record that [get_edges] joined: both are
    records of the list with a position, and the source lists an id that
    names the target. *)
Definition linked (data : list node) (pair : node * node) : Prop :=
  let '(source, target_node) := pair in
  source ∈ data ∧ target_node ∈ data
  ∧ (∃ edge, edge ∈ edge_ids source ∧ matches edge target_node = true)
  ∧ (∀ key, key ∈ ["x"; "y"; "z"] →
       has_key key source = true ∧ has_key key target_node = true).

(** The three entries one joined pair adds to the sequence of [key]. *)
Definition triple (key : string) (pair : node * node) : list value :=
  [pair.1 !!! key; pair.2 !!! key; VNone].

(** [xs + ys] on the three sequences at once. *)
Definition coords_app (a b : coords) : coords :=
  let '(ax, ay, az) := a in
  let '(bx, b_y, bz) := b in
  (ax ++ bx, ay ++ b_y, az ++ bz).

(** [n] flat segments: both ends at height 0, then the sentinel. *)
Definition flat_segments (n : nat) : list value :=
  mjoin (replicate n [VInt 0; VInt 0; VNone]).

(** The accumulators hold the segments of joined pairs, and nothing else. *)
Definition joined (data : list node) (acc : coords) : Prop :=
  ∃ pairs, Forall (linked data) pairs
    ∧ acc = (flat_map (triple "x") pairs, flat_map (triple "y") pairs,
             flat_map (triple "z") pairs).

(** The keys [prepare_hover_text] subscripts under the given flags. *)
Definition hover_reads
    (show_links show_material show_gamma_radius show_criteria : bool)
  : list string :=
  ["id"] ++ (if show_links then ["edges"] else [])
  ++ (if show_material then ["material"] else [])
  ++ (if show_gamma_radius then ["gamma"; "radius"] else [])
  ++ (if show_criteria then ["criteria"] else []).

(** The values [str] turns into text without more ado: an integer of at
    most 4300 decimal digits, which is where the interpreter's conversion
    limit lies, and a list nested no deeper than [depth], of such values. *)
Fixpoint printable_at (depth : nat) (v : value) : bool :=
  match v with
  | VInt n => Z.abs n <? 10 ^ 4300
  | VList l =>
      match depth with
      | O => false
      | S depth' => forallb (printable_at depth') l
      end
  | _ => true
  end.

(** A nesting of 50 stays far from the interpreter's recursion limit. *)
Definition printable (v : value) : bool := printable_at 50 v.

(** Every entry [prepare_hover_text] reads from the record under the given
    flags is printable. *)
Definition printable_record
    (show_links show_material show_gamma_radius show_criteria : bool)
    (item : node) : bool :=
  forallb (λ key, from_option printable true (item !! key))
    (hover_reads show_links show_material show_gamma_radius show_criteria).

(** The size factors the sidebar's slider offers. *)
Definition slider_factor (v : value) : bool :=
  match v with
  | VInt k => (10 <=? k) && (k <=? 100)
  | _ => false
  end.

(** The accumulators of the run on the flattened records, against those of
    the run on the records as they were. *)
Definition flattened (acc acc' : coords) : Prop :=
  let '(xs, ys, zs) := acc in
  let '(xs', ys', zs') := acc' in
  xs' = xs ∧ ys' = ys
  ∧ ∃ n, length zs = (3 * n)%nat ∧ zs' = flat_segments n.

(** What [plot_3d] computes before it builds the figure: the three columns
    of coordinates, the edge sequences, the hover texts and the styles, in
    the order of the source. *)
Definition render_inputs : Type :=
  list value * list value * list value * coords * list string
  * (list string * list value).

Definition gather (material_mapping : list (value * string))
    (material_colors : gmap string string) (data : list node)
    (show_links show_material show_gamma_radius show_criteria : bool)
    (node_radius_size : value) : result render_inputs :=
  x_data ← comprehension (λ item, getitem item "x") data;
  y_data ← comprehension (λ item, getitem item "y") data;
  z_data ← comprehension (λ item, getitem item "z") data;
  edges ← (if show_links then get_edges data else Ok ([], [], []));
  hover_texts ← prepare_hover_text data show_links show_material
                  show_gamma_radius show_criteria;
  styles ← prepare_node_colors_and_sizes material_mapping material_colors
             data node_radius_size;
  Ok (x_data, y_data, z_data, edges, hover_texts, styles).

(** The world after the first log record of [plot_3d]. *)
Definition started (plot_type : string) (w : world) : world :=
  World (log w ++ [(INFO, "Generating 3D " +:+ plot_type +:+ " plot")])
    (charts w).

(** What [plot_3d] does with the gathered inputs. *)
Definition draw (accepts : trace → bool) (plot_type : string)
    (symbol : option string) (show_links : bool) (inputs : render_inputs)
    (w : world) : result unit * world :=
  let '(x_data, y_data, z_data, edges, hover_texts, (colors, sizes)) :=
    inputs in
  match mode_traces plot_type symbol x_data y_data z_data hover_texts colors
          sizes with
  | Some traces =>
      let drawn := traces ++ if show_links then [edge_trace edges] else [] in
      if forallb accepts drawn then
        (Ok tt,
         World (log w ++ [(INFO, "3D " +:+ plot_type
                                 +:+ " plot generated successfully")])
           (charts w ++ [Figure drawn (fig_layout new_figure)]))
      else (Raise ValueError, w)
  | None =>
      (Ok tt,
       World (log w ++ [(ERROR, "Invalid plot type: " +:+ plot_type)])
         (charts w))
  end.

(** The arrays of a trace fit [n] records: a marker or mesh trace has [n]
    entries in every per-record array, and a bare line trace has three
    coordinate sequences of one length. *)
Definition aligned (n : nat) (t : trace) : Prop :=
  match t with
  | Scatter3d x y z _ (Some mk) _ (Some text) _ =>
      length x = n ∧ length y = n ∧ length z = n
      ∧ length (marker_color mk) = n ∧ length (marker_size mk) = n
      ∧ length text = n
  | Scatter3d x y z _ None _ None _ =>
      length x = length y ∧ length y = length z
  | Scatter3d _ _ _ _ _ _ _ _ => False
  | Mesh3d x y z _ _ hovertext intensity _ cmin cmax =>
      length x = n ∧ length y = n ∧ length z = n
      ∧ length hovertext = n ∧ length intensity = n
      ∧ cmin = 0 ∧ cmax = Z.of_nat n - 1
  end.

(** The heights a trace draws. *)
Definition trace_z (t : trace) : list value :=
  match t with
  | Scatter3d _ _ z _ _ _ _ _ => z
  | Mesh3d _ _ z _ _ _ _ _ _ _ => z
  end.

(** The settings [main] initializes. *)
Definition setting_keys : list string :=
  ["show_links"; "show_material"; "show_gamma_radius"; "show_criteria";
   "show_table_data"; "node_height"; "node_radius_size"; "graph_type";
   "node_symbol"].

(** A backend for the examples: it rejects a marker size that is not a
    non-negative integer and a marker symbol outside the eight of the
    sidebar. *)
Definition known_symbols : list string :=
  ["circle"; "circle-open"; "cross"; "diamond"; "diamond-open"; "square";
   "square-open"; "x"].

Definition example_backend (t : trace) : bool :=
  match t with
  | Scatter3d _ _ _ _ (Some mk) _ _ _ =>
      forallb (λ v, match v with VInt n => 0 <=? n | _ => false end)
        (marker_size mk)
      && match marker_symbol mk with
         | Some sym => existsb (String.eqb sym) known_symbols
         | None => true
         end
  | _ => true
  end.

(** * Properties *)

(** ** Sequencing *)

Lemma bind_Ok {A B} (a : A) (k : A → result B) : (Ok a ≫= k) = k a.
Proof. reflexivity. Qed.

Lemma bind_Ok_inv {A B} (r : result A) (k : A → result B) (b : B) :
  (r ≫= k) = Ok b → ∃ a, r = Ok a ∧ k a = Ok b.
Proof. destruct r as [a|e]; [eauto | discriminate]. Qed.

(** A property of the accumulator that every iteration keeps holds when the
    loop ends. *)
Lemma for_each_invariant {A S} (P : S → Prop) (body : S → A → result S) l :
  (∀ acc x acc', P acc → body acc x = Ok acc' → P acc') →
  ∀ acc acc', P acc → for_each body acc l = Ok acc' → P acc'.
Proof.
  intros Hbody. induction l as [|x l IH]; intros acc acc' HP Hrun; simpl in *.
  - by simplify_eq.
  - apply bind_Ok_inv in Hrun as (acc1 & Hx & Hrest). eauto.
Qed.

(** Iterations that leave the accumulator alone can be dropped. *)
Lemma for_each_skip {A S} (body : S → A → result S) (keep : A → bool) l :
  (∀ acc x, keep x = false → body acc x = Ok acc) →
  ∀ acc, for_each body acc (List.filter keep l) = for_each body acc l.
Proof.
  intros Hskip. induction l as [|x l IH]; intros acc; simpl; [done|].
  destruct (keep x) eqn:Hk; simpl.
  - destruct (body acc x); simpl; auto.
  - rewrite Hskip by done. simpl. apply IH.
Qed.

(** ** [get_edges] *)

Lemma visit_item_edges_of data acc item :
  visit_item data acc item
  = (edges_of item ≫= for_each (visit_edge data item) acc).
Proof. unfold visit_item, edges_of. by destruct (item !! "edges"). Qed.

Lemma has_key_Some key item :
  has_key key item = true → ∃ v, item !! key = Some v.
Proof. unfold has_key. destruct (item !! key); [eauto | discriminate]. Qed.

Lemma has_key_total key item :
  has_key key item = true → item !! key = Some (item !!! key).
Proof.
  intros [v Hv]%has_key_Some. by rewrite lookup_total_alt, Hv.
Qed.

Lemma drawable_inv item :
  drawable item = true →
  has_key "id" item = true ∧ has_key "x" item = true
  ∧ has_key "y" item = true ∧ has_key "z" item = true
  ∧ edges_of item = Ok (edge_ids item).
Proof.
  unfold drawable, edge_ids. rewrite !andb_true_iff.
  intros [[[[? ?] ?] ?] Hok]. repeat split; try done.
  by destruct (edges_of item).
Qed.

(** A record found by its id is a non-empty dict, so [if target_node:]
    always takes the branch. *)
Lemma matches_truthy edge n : matches edge n = true → dict_truthy n = true.
Proof.
  unfold matches, dict_truthy. intros Hm.
  destruct (size n) eqn:Hsize; [|done].
  apply map_size_empty_inv in Hsize. subst n.
  by rewrite lookup_empty in Hm.
Qed.

Lemma next_node_target data edge :
  Forall (λ n, has_key "id" n = true) data →
  next_node data edge = Ok (target data edge).
Proof.
  unfold target. induction 1 as [|n data [id Hid]%has_key_Some _ IH]; simpl.
  - done.
  - unfold getitem, matches. rewrite Hid. simpl.
    destruct (py_eq id edge); [done | apply IH].
Qed.

Lemma target_positioned data edge t :
  Forall (λ n, drawable n = true) data →
  target data edge = Some t → drawable t = true ∧ matches edge t = true.
Proof.
  intros Hall Hfind. apply find_some in Hfind as [Hin Hm].
  split; [|done]. rewrite Forall_forall in Hall.
  apply Hall. by apply list_elem_of_In.
Qed.

Lemma target_resolvable data edge :
  resolvable data edge = true ↔ is_Some (target data edge).
Proof.
  unfold resolvable, target. induction data as [|n data IH]; simpl.
  - split; [done | by intros [? ?]].
  - destruct (matches edge n); simpl; [by split; eauto | done].
Qed.

Lemma extend_edge_drawable item t xs ys zs :
  drawable item = true → drawable t = true →
  extend_edge item t (xs, ys, zs)
  = Ok (xs ++ [item !!! "x"; t !!! "x"; VNone],
        ys ++ [item !!! "y"; t !!! "y"; VNone],
        zs ++ [item !!! "z"; t !!! "z"; VNone]).
Proof.
  intros (_ & Hx & Hy & Hz & _)%drawable_inv
         (_ & Hx' & Hy' & Hz' & _)%drawable_inv.
  unfold extend_edge, getitem.
  by rewrite (has_key_total _ _ Hx), (has_key_total _ _ Hy),
    (has_key_total _ _ Hz), (has_key_total _ _ Hx'),
    (has_key_total _ _ Hy'), (has_key_total _ _ Hz').
Qed.

Lemma visit_edge_drawable data item xs ys zs edge :
  Forall (λ n, drawable n = true) data → drawable item = true →
  visit_edge data item (xs, ys, zs) edge
  = Ok (xs ++ segment "x" data item edge,
        ys ++ segment "y" data item edge,
        zs ++ segment "z" data item edge).
Proof.
  intros Hall Hitem. unfold visit_edge, segment.
  rewrite next_node_target; cycle 1.
  { eapply Forall_impl; [done|]. by intros n (? & _)%drawable_inv. }
  simpl. destruct (target data edge) as [t|] eqn:Ht.
  - destruct (target_positioned _ _ _ Hall Ht) as [Ht1 Ht2].
    rewrite (matches_truthy _ _ Ht2). by apply extend_edge_drawable.
  - by rewrite !app_nil_r.
Qed.

Lemma edges_loop_drawable data item edges xs ys zs :
  Forall (λ n, drawable n = true) data → drawable item = true →
  for_each (visit_edge data item) (xs, ys, zs) edges
  = Ok (xs ++ flat_map (segment "x" data item) edges,
        ys ++ flat_map (segment "y" data item) edges,
        zs ++ flat_map (segment "z" data item) edges).
Proof.
  intros Hall Hitem. revert xs ys zs.
  induction edges as [|e edges IH]; intros xs ys zs; simpl.
  - by rewrite !app_nil_r.
  - rewrite visit_edge_drawable by done. simpl.
    rewrite IH. by rewrite <- !app_assoc.
Qed.

Lemma items_loop_drawable data items xs ys zs :
  Forall (λ n, drawable n = true) data →
  Forall (λ n, drawable n = true) items →
  for_each (visit_item data) (xs, ys, zs) items
  = Ok (xs ++ segments "x" data items, ys ++ segments "y" data items,
        zs ++ segments "z" data items).
Proof.
  intros Hall Hitems. revert xs ys zs.
  induction Hitems as [|item items Hitem _ IH]; intros xs ys zs; simpl.
  - by rewrite !app_nil_r.
  - rewrite visit_item_edges_of.
    destruct (drawable_inv _ Hitem) as (_ & _ & _ & _ & ->). simpl.
    rewrite edges_loop_drawable by done. simpl.
    rewrite IH. by rewrite <- !app_assoc.
Qed.

(** On drawable records [get_edges] returns, and its output is the
    concatenation of the segments of all edge occurrences, in order. *)
Lemma get_edges_drawable data :
  Forall (λ n, drawable n = true) data →
  get_edges data
  = Ok (segments "x" data data, segments "y" data data,
        segments "z" data data).
Proof. intros Hall. by apply (items_loop_drawable data data [] [] []). Qed.

Lemma segment_length key data item edge :
  length (segment key data item edge)
  = if resolvable data edge then 3%nat else 0%nat.
Proof.
  unfold segment. destruct (resolvable data edge) eqn:Hr.
  - apply target_resolvable in Hr as [t ->]. done.
  - destruct (target data edge) eqn:Ht; [|done].
    assert (resolvable data edge = true) by (apply target_resolvable; eauto).
    congruence.
Qed.

Lemma segments_of_item_length key data item edges :
  length (flat_map (segment key data item) edges)
  = (3 * length (List.filter (resolvable data) edges))%nat.
Proof.
  induction edges as [|e edges IH]; simpl; [done|].
  rewrite length_app, segment_length, IH.
  destruct (resolvable data e); simpl; lia.
Qed.

Lemma segments_length key data items :
  length (segments key data items)
  = (3 * sum_list_with (λ item, length (List.filter (resolvable data)
                                           (edge_ids item))) items)%nat.
Proof.
  unfold segments. induction items as [|item items IH]; [done|].
  cbn [flat_map sum_list_with].
  rewrite length_app, segments_of_item_length, IH. lia.
Qed.

Lemma filter_all {A} (f : A → bool) (l : list A) :
  (∀ x, x ∈ l → f x = true) → List.filter f l = l.
Proof.
  induction l as [|x l IH]; intros Hall; simpl; [done|].
  rewrite Hall by left. f_equal. apply IH. intros y Hy. apply Hall. by right.
Qed.

Lemma resolved_all data :
  (∀ item e, item ∈ data → e ∈ edge_ids item → resolvable data e = true) →
  resolved_edge_count data = total_edge_count data.
Proof.
  unfold resolved_edge_count, total_edge_count.
  generalize (resolvable data). intros f Hall.
  induction data as [|item data IH]; [done|].
  cbn [sum_list_with]. rewrite IH.
  - rewrite filter_all; [done|]. intros e He. apply (Hall item); [left | done].
  - intros item' e Hin. apply Hall. by right.
Qed.

Lemma extend_edge_balanced item t acc acc' :
  balanced acc → extend_edge item t acc = Ok acc' → balanced acc'.
Proof.
  destruct acc as [[xs ys] zs]. unfold extend_edge, getitem. intros [Hxy Hyz].
  destruct (item !! "x"), (t !! "x"), (item !! "y"), (t !! "y"),
    (item !! "z"), (t !! "z"); simpl; try discriminate.
  intros [= <-]. simpl. rewrite !length_app. simpl. lia.
Qed.

Lemma visit_edge_balanced data item acc edge acc' :
  balanced acc → visit_edge data item acc edge = Ok acc' → balanced acc'.
Proof.
  intros Hacc. unfold visit_edge.
  intros ([t|] & _ & Hrun)%bind_Ok_inv; [|by simplify_eq].
  destruct (dict_truthy t); [|by simplify_eq].
  by eapply extend_edge_balanced.
Qed.

Lemma visit_item_balanced data acc item acc' :
  balanced acc → visit_item data acc item = Ok acc' → balanced acc'.
Proof.
  intros Hacc. rewrite visit_item_edges_of.
  intros (edges & _ & Hrun)%bind_Ok_inv.
  apply (for_each_invariant balanced (visit_edge data item) edges
           (visit_edge_balanced data item) acc acc' Hacc Hrun).
Qed.

Lemma get_edges_over_no_edges data items acc :
  Forall (λ item, edges_of item = Ok []) items →
  for_each (visit_item data) acc items = Ok acc.
Proof.
  induction 1 as [|item items Hitem _ IH]; simpl; [done|].
  rewrite visit_item_edges_of, Hitem. simpl. apply IH.
Qed.

(** *** The claims about [get_edges] *)

(** C1. [get_edges] returns three sequences of equal length; when no record
    lists an edge all three are empty; on drawable records it returns, and
    when every edge id names a record of the list each sequence has three
    entries per edge occurrence. *)
Theorem get_edges_lengths (data : list node) :
  (∀ xs ys zs, get_edges data = Ok (xs, ys, zs) →
     length xs = length ys ∧ length ys = length zs)
  ∧ (Forall (λ item, edges_of item = Ok []) data →
     get_edges data = Ok ([], [], []))
  ∧ (Forall (λ item, drawable item = true) data →
     ∃ xs ys zs, get_edges data = Ok (xs, ys, zs)
       ∧ length xs = length ys ∧ length ys = length zs
       ∧ ((∀ item e, item ∈ data → e ∈ edge_ids item →
             resolvable data e = true) →
          length xs = (3 * total_edge_count data)%nat
          ∧ length ys = (3 * total_edge_count data)%nat
          ∧ length zs = (3 * total_edge_count data)%nat)).
Proof.
  split; [|split].
  - intros xs ys zs Hrun.
    apply (for_each_invariant balanced (visit_item data) data
             (visit_item_balanced data) ([], [], []) (xs, ys, zs)); done.
  - apply get_edges_over_no_edges.
  - intros Hall. eexists _, _, _. split; [by apply get_edges_drawable|].
    rewrite !segments_length. fold (resolved_edge_count data).
    split; [done|]. split; [done|]. intros Hres. by rewrite resolved_all.
Qed.

Lemma get_edges_lengths_witness :
  get_edges [node_2; bare_node] = Ok ([], [], [])
  ∧ ∃ xs ys zs, get_edges [node_1; node_2] = Ok (xs, ys, zs)
      ∧ length xs = 3%nat ∧ length ys = 3%nat ∧ length zs = 3%nat.
Proof.
  assert (∀ item e, item ∈ [node_1; node_2] → e ∈ edge_ids item →
            resolvable [node_1; node_2] e = true) as Hres.
  { intros item e Hin He. vm_compute.
    repeat (apply elem_of_cons in Hin as [->|Hin]);
      [| |by apply elem_of_nil in Hin]; vm_compute in He.
    - by apply list_elem_of_singleton in He as ->.
    - by apply elem_of_nil in He. }
  split.
  - apply (get_edges_lengths [node_2; bare_node]). repeat constructor.
  - destruct (get_edges_lengths [node_1; node_2])
      as (_ & _ & Hdrawable).
    destruct Hdrawable as (xs & ys & zs & Hrun & _ & _ & Hlen).
    { repeat constructor. }
    exists xs, ys, zs. split; [exact Hrun|]. exact (Hlen Hres).
Defined.

(** C8. On drawable records [get_edges] raises nothing, and its output is
    the concatenation, over the edge occurrences in order, of one segment
    each: empty for an id that names no record, and source coordinate,
    target coordinate, sentinel for an id that does. *)
Theorem get_edges_skips_dangling (data : list node) :
  Forall (λ item, drawable item = true) data →
  get_edges data
  = Ok (segments "x" data data, segments "y" data data, segments "z" data data)
  ∧ (∀ key item e, resolvable data e = false → segment key data item e = [])
  ∧ (∀ key item e, resolvable data e = true →
       ∃ t, t ∈ data ∧ matches e t = true
         ∧ segment key data item e = [item !!! key; t !!! key; VNone])
  ∧ length (segments "x" data data) = (3 * resolved_edge_count data)%nat
  ∧ length (segments "y" data data) = (3 * resolved_edge_count data)%nat
  ∧ length (segments "z" data data) = (3 * resolved_edge_count data)%nat.
Proof.
  intros Hall. split; [by apply get_edges_drawable|].
  split; [|split].
  - intros key item e Hr. unfold segment.
    destruct (target data e) eqn:Ht; [|done].
    assert (resolvable data e = true) by (apply target_resolvable; eauto).
    congruence.
  - intros key item e [t Ht]%target_resolvable. exists t.
    unfold segment. rewrite Ht. apply find_some in Ht as [Hin Hm].
    by rewrite <- list_elem_of_In in Hin.
  - by rewrite !segments_length.
Qed.

Lemma get_edges_skips_dangling_witness :
  get_edges [node_1; node_3]
  = Ok ([VInt 7; VInt 0; VNone], [VInt 8; VInt 0; VNone],
        [VInt 9; VInt 0; VNone])
  ∧ segment "x" [node_1; node_3] node_3 (VInt 42) = [].
Proof.
  destruct (get_edges_skips_dangling [node_1; node_3]) as (Hrun & Hskip & _).
  - repeat constructor.
  - split; [rewrite Hrun; reflexivity | by apply Hskip].
Defined.

(** C9. A record without an ["edges"] key leaves the accumulators as they
    are, so the output is that of the loop run over the records that carry
    the key, with targets still looked up in the whole list. *)
Theorem get_edges_ignores_records_without_edges (data : list node) :
  (∀ acc item, item !! "edges" = None → visit_item data acc item = Ok acc)
  ∧ get_edges_over data (List.filter (has_key "edges") data) = get_edges data.
Proof.
  assert (∀ acc item, has_key "edges" item = false →
            visit_item data acc item = Ok acc) as Hskip.
  { intros acc item. unfold has_key, visit_item.
    by destruct (item !! "edges"). }
  split.
  - intros acc item Hnone. apply Hskip. unfold has_key. by rewrite Hnone.
  - by apply for_each_skip.
Qed.

Lemma get_edges_ignores_records_without_edges_witness :
  get_edges [node_1; delete "edges" node_2]
  = Ok ([VInt 0; VInt 1; VNone], [VInt 0; VInt 1; VNone],
        [VInt 0; VInt 1; VNone]).
Proof.
  destruct (get_edges_ignores_records_without_edges
              [node_1; delete "edges" node_2]) as [_ <-].
  reflexivity.
Defined.

(** ** Loops that append one entry per record *)

Lemma comprehension_lookup {A B} (f : A → result B) l ys :
  comprehension f l = Ok ys →
  length ys = length l
  ∧ ∀ i x, l !! i = Some x → ∃ y, f x = Ok y ∧ ys !! i = Some y.
Proof.
  revert ys. induction l as [|x l IH]; intros ys; simpl.
  - intros [= <-]. split; [done|]. intros i x Hx. by destruct i.
  - intros (y & Hy & (ys' & Hys' & [= <-])%bind_Ok_inv)%bind_Ok_inv.
    destruct (IH _ Hys') as [Hlen Hnth]. split; [simpl; lia|].
    intros [|i] x' Hx'; simpl in *; [simplify_eq; eauto | eauto].
Qed.

Lemma comprehension_ok {A B} (f : A → result B) l :
  Forall (λ x, is_ok (f x) = true) l → is_ok (comprehension f l) = true.
Proof.
  induction 1 as [|x l Hx _ IH]; simpl; [done|].
  destruct (f x); [|done]. simpl. by destruct (comprehension f l).
Qed.

Lemma comprehension_raises {A B} (f : A → result B) l x :
  x ∈ l → is_ok (f x) = false → is_ok (comprehension f l) = false.
Proof.
  induction 1 as [x l|x y l _ IH]; intros Hx; simpl.
  - by destruct (f x).
  - destruct (f y); [|done]. simpl. specialize (IH Hx).
    by destruct (comprehension f l).
Qed.

(** [out = []; for x in l: out.append(f(x))] is a comprehension. *)
Lemma append_loop {A B} (f : A → result B) l out :
  for_each (λ out x, y ← f x; Ok (out ++ [y])) out l
  = (comprehension f l ≫= λ ys, Ok (out ++ ys)).
Proof.
  revert out. induction l as [|x l IH]; intros out; simpl.
  - by rewrite app_nil_r.
  - destruct (f x) as [y|e]; simpl; [|done]. rewrite IH.
    destruct (comprehension f l) as [ys|e]; simpl; [|done].
    by rewrite <- app_assoc.
Qed.

Lemma comprehension_ext {A B} (f g : A → result B) l :
  (∀ x, f x = g x) → comprehension f l = comprehension g l.
Proof.
  intros Hfg. induction l as [|x l IH]; simpl; [done|]. by rewrite Hfg, IH.
Qed.

Lemma bind_Ok_id {A} (r : result A) : (r ≫= Ok) = r.
Proof. by destruct r. Qed.

Lemma append_assoc (a b c : string) : (a +:+ b) +:+ c = a +:+ (b +:+ c).
Proof.
  induction a as [|ch a IH]; [done|].
  change (String ch ((a +:+ b) +:+ c) = String ch (a +:+ (b +:+ c))).
  by rewrite IH.
Qed.

(** ** [prepare_hover_text] *)

Lemma hover_item_spec f1 f2 f3 f4 item :
  hover_item f1 f2 f3 f4 item = hover_text_spec f1 f2 f3 f4 item.
Proof.
  unfold hover_item, hover_text_spec, getitem.
  destruct (item !! "id") as [id|]; [|done].
  destruct f1, f2, f3, f4; cbn -[String.append];
    unfold links_section, material_section, gamma_radius_section,
      criteria_section, getitem;
    repeat match goal with
      | |- context [item !! ?k] => destruct (item !! k); cbn -[String.append]
      | |- context [py_iter ?v] => destruct (py_iter v); cbn -[String.append]
      end;
    try done;
    rewrite ?append_assoc; reflexivity.
Qed.

Lemma prepare_hover_text_spec data f1 f2 f3 f4 :
  prepare_hover_text data f1 f2 f3 f4
  = comprehension (hover_text_spec f1 f2 f3 f4) data.
Proof.
  unfold prepare_hover_text. rewrite append_loop. simpl. rewrite bind_Ok_id.
  apply comprehension_ext, hover_item_spec.
Qed.

Lemma describable_ok f1 f2 f3 f4 item :
  describable f1 f2 f3 f4 item = true →
  is_ok (hover_text_spec f1 f2 f3 f4 item) = true.
Proof.
  rewrite <- hover_item_spec. unfold describable, hover_item, has_key, getitem.
  destruct (item !! "id"); [|done].
  destruct f1, f2, f3, f4; cbn -[String.append];
    repeat match goal with
      | |- context [item !! ?k] => destruct (item !! k); cbn -[String.append]
      | |- context [py_iter ?v] => destruct (py_iter v); cbn -[String.append]
      end;
    done.
Qed.

Lemma prepare_hover_text_ok data f1 f2 f3 f4 :
  Forall (λ item, describable f1 f2 f3 f4 item = true) data →
  is_ok (prepare_hover_text data f1 f2 f3 f4) = true.
Proof.
  intros Hall. rewrite prepare_hover_text_spec. apply comprehension_ok.
  eapply Forall_impl; [done|]. intros item. apply describable_ok.
Qed.

(** C3. [prepare_hover_text] returns one string per record, in order: the
    header ["Node ID: <id>"] followed by the sections of the enabled flags in
    the order links, material, gamma with radius, criteria, each introduced
    by ["<br>"]; with every flag off the string is the header alone. *)
Theorem hover_text_sections (data : list node) (f1 f2 f3 f4 : bool) :
  prepare_hover_text data f1 f2 f3 f4
  = comprehension (hover_text_spec f1 f2 f3 f4) data
  ∧ (Forall (λ item, describable f1 f2 f3 f4 item = true) data →
     is_ok (prepare_hover_text data f1 f2 f3 f4) = true)
  ∧ (∀ texts, prepare_hover_text data f1 f2 f3 f4 = Ok texts →
     length texts = length data
     ∧ ∀ i item, data !! i = Some item →
         ∃ id sections,
           item !! "id" = Some id
           ∧ comprehension (λ section, section item)
               (enabled_sections f1 f2 f3 f4) = Ok sections
           ∧ texts !! i
             = Some (join "<br>" (("Node ID: " +:+ py_str id) :: sections)))
  ∧ (∀ texts, prepare_hover_text data false false false false = Ok texts →
     ∀ i item, data !! i = Some item →
       ∃ id, item !! "id" = Some id
         ∧ texts !! i = Some ("Node ID: " +:+ py_str id))
  ∧ prepare_hover_text
      [ {[ "id" := VInt 5; "material" := VStr "X"; "gamma" := VInt 2;
           "radius" := VInt 3 ]} ] false true true false
    = Ok ["Node ID: 5<br>Material: X<br>Gamma: 2<br>Radius: 3"].
Proof.
  assert (∀ g1 g2 g3 g4 texts,
            prepare_hover_text data g1 g2 g3 g4 = Ok texts →
            length texts = length data
            ∧ ∀ i item, data !! i = Some item →
                ∃ id sections,
                  item !! "id" = Some id
                  ∧ comprehension (λ section, section item)
                      (enabled_sections g1 g2 g3 g4) = Ok sections
                  ∧ texts !! i
                    = Some (join "<br>"
                              (("Node ID: " +:+ py_str id) :: sections)))
    as Hshape.
  { intros g1 g2 g3 g4 texts. rewrite prepare_hover_text_spec.
    intros [Hlen Hnth]%comprehension_lookup. split; [done|].
    intros i item Hitem. destruct (Hnth i item Hitem) as (text & Htext & Hi).
    unfold hover_text_spec, getitem in Htext.
    destruct (item !! "id") as [id|]; [|done]. simpl in Htext.
    apply bind_Ok_inv in Htext as (sections & Hsec & [= <-]). eauto. }
  split; [apply prepare_hover_text_spec|]. split; [|split; [|split]].
  - apply prepare_hover_text_ok.
  - apply Hshape.
  - intros texts Hrun i item Hitem.
    destruct (Hshape _ _ _ _ _ Hrun) as [_ Hnth].
    destruct (Hnth i item Hitem) as (id & sections & Hid & Hsec & Hi).
    simpl in Hsec. simplify_eq. eauto.
  - reflexivity.
Qed.

Lemma hover_text_sections_witness :
  is_ok (prepare_hover_text [node_1; node_2] true true false false) = true
  ∧ (∀ texts,
       prepare_hover_text [node_1; node_2] true true false false = Ok texts →
       texts = ["Node ID: 1<br>Links: 2<br>Material: A";
                "Node ID: 2<br>Links: <br>Material: B"]).
Proof.
  destruct (hover_text_sections [node_1; node_2] true true false false)
    as (Hspec & Hok & _).
  split.
  - apply Hok. repeat constructor.
  - intros texts Hrun.
    assert (prepare_hover_text [node_1; node_2] true true false false
            = Ok ["Node ID: 1<br>Links: 2<br>Material: A";
                  "Node ID: 2<br>Links: <br>Material: B"]) as Heq
      by (vm_compute; reflexivity).
    congruence.
Defined.

(** ** [prepare_node_colors_and_sizes] *)

Section Styles.

Context (material_mapping : list (value * string)).
Context (material_colors : gmap string string).

Local Abbreviation prepare_styles :=
  (prepare_node_colors_and_sizes material_mapping material_colors).
Local Abbreviation style_step := (style_item material_mapping material_colors).
Local Abbreviation node_style := (node_style material_mapping material_colors).

Lemma style_item_node_style s colors sizes item :
  style_step s (colors, sizes) item
  = (node_style s item ≫= λ cs, Ok (colors ++ [cs.1], sizes ++ [cs.2])).
Proof.
  unfold style_item, node_style.
  destruct (getitem item "material") as [material|]; simpl; [|done].
  destruct (dict_get material_mapping material "UNKNOWN"); simpl; [|done].
  destruct (getitem item "radius") as [radius|]; simpl; [|done].
  by destruct (py_mul radius s).
Qed.

Lemma styles_loop s data colors sizes :
  for_each (style_step s) (colors, sizes) data
  = (comprehension (node_style s) data
     ≫= λ l, Ok (colors ++ l.*1, sizes ++ l.*2)).
Proof.
  revert colors sizes. induction data as [|item data IH]; intros colors sizes.
  - simpl. by rewrite !app_nil_r.
  - cbn [for_each comprehension]. rewrite style_item_node_style.
    destruct (node_style s item) as [[c z]|e]; simpl; [|done].
    rewrite IH. destruct (comprehension (node_style s) data); simpl; [|done].
    by rewrite <- !app_assoc.
Qed.

Lemma stylable_ok s item :
  stylable item = true → numeric s = true → is_ok (node_style s item) = true.
Proof.
  unfold stylable, node_style, getitem, dict_get, numeric, py_mul.
  destruct (item !! "material") as [material|]; [|done].
  destruct (item !! "radius") as [radius|]; [|done].
  intros [Hm Hr]%andb_true_iff Hs. simpl. rewrite Hm. simpl.
  by destruct (as_int radius), (as_int s).
Qed.

Lemma prepare_styles_ok s data :
  Forall (λ item, stylable item = true) data → numeric s = true →
  is_ok (prepare_styles data s) = true.
Proof.
  intros Hall Hs. unfold prepare_node_colors_and_sizes. rewrite styles_loop.
  pose proof (comprehension_ok (node_style s) data) as Hok.
  destruct (comprehension (node_style s) data); [done|].
  apply Hok. eapply Forall_impl; [done|]. intros item Hitem.
  by apply stylable_ok.
Qed.

(** C2, as amended.  [prepare_node_colors_and_sizes] returns one colour and
    one size per record, in order; the size is [radius * node_radius_size],
    the product of the two integers whatever their sign; the colour is the
    colour-table entry of the class the material maps to, with ["UNKNOWN"]
    for a material the name table lacks and ["purple"] for a class the
    colour table lacks.  So a material the name table lacks gets the colour
    the colour table has for ["UNKNOWN"], whatever that is, and ["purple"]
    when the colour table has no such entry. *)
Theorem styles_per_node (data : list node) (node_radius_size : value) :
  (Forall (λ item, stylable item = true) data →
   numeric node_radius_size = true →
   is_ok (prepare_styles data node_radius_size) = true)
  ∧ (∀ colors sizes,
       prepare_styles data node_radius_size = Ok (colors, sizes) →
       length colors = length data ∧ length sizes = length data
       ∧ ∀ i item, data !! i = Some item →
           ∃ material class radius size,
             item !! "material" = Some material
             ∧ item !! "radius" = Some radius
             ∧ dict_get material_mapping material "UNKNOWN" = Ok class
             ∧ colors !! i = Some (default "purple" (material_colors !! class))
             ∧ py_mul radius node_radius_size = Ok size
             ∧ sizes !! i = Some size
             ∧ (∀ r k, radius = VInt r → node_radius_size = VInt k →
                  size = VInt (r * k))
             ∧ (lookup_key material_mapping material = None →
                  class = "UNKNOWN")
             ∧ (material_colors !! class = None →
                  colors !! i = Some "purple")
             ∧ (lookup_key material_mapping material = None →
                  (∀ color, material_colors !! "UNKNOWN" = Some color →
                            colors !! i = Some color)
                  ∧ (material_colors !! "UNKNOWN" = None →
                     colors !! i = Some "purple"))).
Proof.
  split; [apply prepare_styles_ok|].
  unfold prepare_node_colors_and_sizes. rewrite styles_loop.
  - intros colors sizes (l & Hl & [= <- <-])%bind_Ok_inv.
    apply comprehension_lookup in Hl as [Hlen Hnth].
    rewrite !length_fmap. split; [done|]. split; [done|].
    intros i item Hitem. destruct (Hnth i item Hitem) as ([c z] & Hstyle & Hi).
    unfold node_style, getitem in Hstyle.
    destruct (item !! "material") as [material|]; [|done].
    simpl in Hstyle.
    apply bind_Ok_inv in Hstyle as (class & Hclass & Hstyle).
    destruct (item !! "radius") as [radius|]; [|done].
    simpl in Hstyle. apply bind_Ok_inv in Hstyle as (size & Hsize & [= <- <-]).
    exists material, class, radius, size.
    rewrite !list_lookup_fmap, Hi. simpl.
    assert (lookup_key material_mapping material = None → class = "UNKNOWN")
      as Hunknown.
    { intros Hnone. unfold dict_get in Hclass. rewrite Hnone in Hclass.
      destruct (hashable material); by simplify_eq. }
    do 6 (split; [done|]). split; [|split; [done|split]].
    + intros r k -> ->. unfold py_mul in Hsize. cbn [as_int] in Hsize.
      by injection Hsize as <-.
    + by intros ->.
    + intros ->%Hunknown. split.
      * by intros color ->.
      * by intros ->.
Qed.

End Styles.

Lemma styles_per_node_witness :
  let data := [ <["radius" := VInt (-2)]> node_1;
                <["radius" := VInt 0]> node_2 ] in
  is_ok (prepare_node_colors_and_sizes [(VStr "A", "WOOD")]
           {[ "WOOD" := "brown" ]} data (VInt 50)) = true
  ∧ ∀ colors sizes,
      prepare_node_colors_and_sizes [(VStr "A", "WOOD")]
        {[ "WOOD" := "brown" ]} data (VInt 50) = Ok (colors, sizes) →
      length colors = 2%nat ∧ length sizes = 2%nat.
Proof.
  intros data.
  destruct (styles_per_node [(VStr "A", "WOOD")] {[ "WOOD" := "brown" ]}
              data (VInt 50)) as [Hok Hshape].
  split.
  - apply Hok; [repeat constructor | reflexivity].
  - intros colors sizes Hrun.
    destruct (Hshape colors sizes Hrun) as (Hc & Hs & _). by split.
Defined.

(** C2, as stated, fails: a material that neither table has as a key gets
    the colour the colour table gives for ["UNKNOWN"], not ["purple"]. *)
Lemma unknown_material_not_purple :
  let material_mapping : list (value * string) := [(VInt 1, "WOOD")] in
  let material_colors : gmap string string :=
    {[ "WOOD" := "brown"; "UNKNOWN" := "black" ]} in
  let item : node := {[ "material" := VStr "Z"; "radius" := VInt 1 ]} in
  lookup_key material_mapping (VStr "Z") = None
  ∧ material_colors !! "Z" = None
  ∧ prepare_node_colors_and_sizes material_mapping material_colors [item]
      (VInt 50)
    = Ok (["black"], [VInt 50])
  ∧ "black" ≠ "purple".
Proof. repeat split; done. Qed.

(** ** Records with a field missing *)

Lemma for_each_fmap {A B S} (body : S → B → result S) (f : A → B) acc l :
  for_each body acc (f <$> l) = for_each (λ acc x, body acc (f x)) acc l.
Proof.
  revert acc. induction l as [|x l IH]; intros acc; [done|].
  rewrite fmap_cons. cbn [for_each].
  destruct (body acc (f x)); simpl; [apply IH | done].
Qed.

Lemma for_each_ext {A S} (body body' : S → A → result S) acc l :
  (∀ acc x, body acc x = body' acc x) →
  for_each body acc l = for_each body' acc l.
Proof.
  intros Hext. revert acc. induction l as [|x l IH]; intros acc; simpl.
  - done.
  - rewrite Hext. destruct (body' acc x); simpl; [apply IH | done].
Qed.

Lemma next_node_found data edge t :
  next_node data edge = Ok (Some t) → t ∈ data ∧ matches edge t = true.
Proof.
  induction data as [|n data IH]; simpl; [done|].
  unfold getitem, matches. destruct (n !! "id") as [id|] eqn:Hid; [|done].
  simpl. destruct (py_eq id edge) eqn:Heq.
  - intros [= <-]. split; [left|]. by rewrite Hid.
  - intros [Hin Hm]%IH. split; [by right | done].
Qed.

Lemma next_node_fmap (f : node → node) (data : list node) edge :
  (∀ n, f n !! "id" = n !! "id") →
  next_node (f <$> data) edge
  = (next_node data edge ≫= λ o : option node, Ok (f <$> o)).
Proof.
  intros Hid. induction data as [|n data IH]; [done|].
  rewrite fmap_cons. cbn [next_node]. unfold getitem. rewrite Hid.
  destruct (n !! "id") as [id|]; [|done]. simpl.
  destruct (py_eq id edge); [done | apply IH].
Qed.

Lemma visit_edge_fmap (f : node → node) (data : list node) item acc edge :
  (∀ n key, key ∈ ["id"; "x"; "y"; "z"] → f n !! key = n !! key) →
  visit_edge (f <$> data) (f item) acc edge = visit_edge data item acc edge.
Proof.
  intros Hkeep. unfold visit_edge.
  rewrite next_node_fmap by (intros n; apply Hkeep; set_solver).
  destruct (next_node data edge) as [[t|]|] eqn:Hfind; [|done..]. simpl.
  apply next_node_found in Hfind as [_ Hm].
  rewrite (matches_truthy edge t Hm), (matches_truthy edge (f t)); cycle 1.
  { unfold matches in *. by rewrite Hkeep by set_solver. }
  destruct acc as [[xs ys] zs]. unfold extend_edge, getitem.
  by rewrite !Hkeep by set_solver.
Qed.

Lemma with_empty_edges_keeps key item :
  key ∈ ["id"; "x"; "y"; "z"] → with_empty_edges item !! key = item !! key.
Proof.
  intros Hkey. unfold with_empty_edges.
  destruct (item !! "edges"); [done|]. apply lookup_insert_ne.
  intros <-.
  repeat (apply elem_of_cons in Hkey as [Hkey|Hkey]; [done|]).
  by apply elem_of_nil in Hkey.
Qed.

Lemma with_empty_edges_lookup item :
  with_empty_edges item !! "edges"
  = Some (default (VList []) (item !! "edges")).
Proof.
  unfold with_empty_edges.
  destruct (item !! "edges") eqn:He; [done|]. apply lookup_insert_eq.
Qed.

(** An empty adjacency list put where the entry is missing changes neither
    the result of [get_edges] nor its exception. *)
Lemma get_edges_with_empty_edges data :
  get_edges (with_empty_edges <$> data) = get_edges data.
Proof.
  unfold get_edges, get_edges_over. rewrite for_each_fmap.
  apply for_each_ext. intros acc item. unfold visit_item.
  rewrite with_empty_edges_lookup.
  destruct (item !! "edges") as [edges|]; [|done]. simpl.
  destruct (py_iter edges) as [es|]; [|done]. simpl.
  apply for_each_ext. intros a e. apply visit_edge_fmap.
  intros n key Hkey. by apply with_empty_edges_keeps.
Qed.

Lemma has_key_None key item : has_key key item = false → item !! key = None.
Proof. unfold has_key. by destruct (item !! key). Qed.

Lemma node_style_needs_fields mm mc s item :
  has_key "material" item = false ∨ has_key "radius" item = false →
  is_ok (node_style mm mc s item) = false.
Proof.
  unfold node_style, getitem.
  intros [Hnone%has_key_None | Hnone%has_key_None]; rewrite Hnone.
  - done.
  - destruct (item !! "material") as [material|]; [|done]. simpl.
    by destruct (dict_get mm material "UNKNOWN").
Qed.

Lemma hover_item_needs_fields f1 f2 f3 f4 item :
  f2 = true ∧ has_key "material" item = false
  ∨ f3 = true ∧ (has_key "gamma" item = false ∨ has_key "radius" item = false)
  ∨ f4 = true ∧ has_key "criteria" item = false →
  is_ok (hover_item f1 f2 f3 f4 item) = false.
Proof.
  unfold hover_item, getitem.
  intros [[-> Hnone%has_key_None]
         | [[-> [Hnone%has_key_None | Hnone%has_key_None]]
           | [-> Hnone%has_key_None]]];
    rewrite Hnone; destruct (item !! "id"); try done;
    destruct f1; cbn -[String.append];
    repeat match goal with
      | |- context [if ?b then _ else _] =>
          is_var b; destruct b; cbn -[String.append]
      | |- context [item !! ?k] => destruct (item !! k); cbn -[String.append]
      | |- context [py_iter ?v] => destruct (py_iter v); cbn -[String.append]
      end;
    done.
Qed.

(** C4, as amended.  [get_edges] completes on records that have an id and a
    position and whose ["edges"] entry, when there is one, is a sequence; a
    missing ["edges"] entry counts as no edges: the record leaves the
    accumulators as they are, and the result, or the exception, is that of
    the list with an empty adjacency list put in each such record.  The
    other two builders read their fields by subscript: a record without
    ["material"] or ["radius"] makes [prepare_node_colors_and_sizes] raise,
    and a record without the field of an enabled material, gamma/radius or
    criteria section makes [prepare_hover_text] raise; with every flag off
    [prepare_hover_text] needs the id alone. *)
Theorem builders_on_missing_fields
    (material_mapping : list (value * string))
    (material_colors : gmap string string) (data : list node) :
  (Forall (λ item, drawable item = true) data →
   is_ok (get_edges data) = true)
  ∧ (∀ acc item, has_key "edges" item = false →
       visit_item data acc item = Ok acc)
  ∧ Forall (λ item, has_key "edges" item = true) (with_empty_edges <$> data)
  ∧ get_edges (with_empty_edges <$> data) = get_edges data
  ∧ (∀ item node_radius_size,
       item ∈ data →
       has_key "material" item = false ∨ has_key "radius" item = false →
       is_ok (prepare_node_colors_and_sizes material_mapping material_colors
                data node_radius_size) = false)
  ∧ (∀ item f1 f2 f3 f4,
       item ∈ data →
       f2 = true ∧ has_key "material" item = false
       ∨ f3 = true
         ∧ (has_key "gamma" item = false ∨ has_key "radius" item = false)
       ∨ f4 = true ∧ has_key "criteria" item = false →
       is_ok (prepare_hover_text data f1 f2 f3 f4) = false)
  ∧ (Forall (λ item, has_key "id" item = true) data →
     is_ok (prepare_hover_text data false false false false) = true).
Proof.
  split; [|split; [|split; [|split; [|split; [|split]]]]].
  - intros Hall. by rewrite get_edges_drawable.
  - intros acc item Hnone%has_key_None. unfold visit_item. by rewrite Hnone.
  - apply Forall_fmap, Forall_forall. intros item _. unfold has_key. simpl.
    by rewrite with_empty_edges_lookup.
  - apply get_edges_with_empty_edges.
  - intros item s Hin Hmiss. unfold prepare_node_colors_and_sizes.
    rewrite styles_loop.
    pose proof (comprehension_raises
                  (node_style material_mapping material_colors s) data item
                  Hin (node_style_needs_fields _ _ _ _ Hmiss)) as Hraise.
    by destruct (comprehension _ data).
  - intros item f1 f2 f3 f4 Hin Hmiss. rewrite prepare_hover_text_spec.
    apply (comprehension_raises _ _ item Hin).
    rewrite <- hover_item_spec. by apply hover_item_needs_fields.
  - intros Hall. apply prepare_hover_text_ok.
    eapply Forall_impl; [done|]. intros item Hid.
    unfold describable. by rewrite Hid.
Qed.

Lemma builders_on_missing_fields_witness :
  is_ok (get_edges [bare_node]) = true
  ∧ visit_item [bare_node] ([], [], []) bare_node = Ok ([], [], [])
  ∧ is_ok (prepare_node_colors_and_sizes [] ∅ [bare_node] (VInt 50)) = false
  ∧ is_ok (prepare_hover_text [bare_node] false false false true) = false
  ∧ is_ok (prepare_hover_text [bare_node] false false false false) = true.
Proof.
  destruct (builders_on_missing_fields [] ∅ [bare_node])
    as (Hedges & Hskip & _ & _ & Hstyle & Hhover & Hid).
  split; [|split; [|split; [|split]]].
  - apply Hedges. repeat constructor.
  - apply Hskip. reflexivity.
  - apply (Hstyle bare_node); [by left | by left].
  - apply (Hhover bare_node); [by left | by right; right].
  - apply Hid. repeat constructor.
Defined.

(** C4, as stated, fails: a record with an id and a position but no
    material makes two of the three builders raise [KeyError]. *)
Lemma missing_material_raises :
  has_key "x" bare_node = true ∧ has_key "y" bare_node = true
  ∧ has_key "z" bare_node = true
  ∧ prepare_node_colors_and_sizes [] ∅ [bare_node] (VInt 50)
    = Raise (KeyError "material")
  ∧ prepare_hover_text [bare_node] false true false false
    = Raise (KeyError "material").
Proof. repeat split; done. Qed.

(** ** [adjust_node_height_data] *)

(** C5. With the flag off every record gets [z = 0] and keeps [x] and [y];
    with the flag on the list is returned as it is; a second call with the
    same flag changes nothing. *)
Theorem adjust_height_flattens (data : list node) :
  (length (adjust_node_height_data data false) = length data
   ∧ ∀ i item, data !! i = Some item →
       ∃ item', adjust_node_height_data data false !! i = Some item'
         ∧ item' !! "z" = Some (VInt 0)
         ∧ item' !! "x" = item !! "x"
         ∧ item' !! "y" = item !! "y")
  ∧ adjust_node_height_data data true = data
  ∧ ∀ node_height,
      adjust_node_height_data (adjust_node_height_data data node_height)
        node_height
      = adjust_node_height_data data node_height.
Proof.
  unfold adjust_node_height_data. simpl. split; [split|split].
  - apply length_fmap.
  - intros i item Hitem. exists (<["z" := VInt 0]> item).
    rewrite list_lookup_fmap, Hitem. simpl.
    by rewrite lookup_insert_eq, !lookup_insert_ne.
  - done.
  - intros [|]; simpl; [done|].
    rewrite <- list_fmap_compose. apply list_fmap_ext.
    intros _ item _. simpl. apply insert_insert_eq.
Qed.

(** C10. The returned list has the records of the input in the same order,
    and each record differs from its input at most in ["z"]. *)
Theorem adjust_height_frame (data : list node) (node_height : bool) :
  length (adjust_node_height_data data node_height) = length data
  ∧ ∀ i item, data !! i = Some item →
      ∃ item', adjust_node_height_data data node_height !! i = Some item'
        ∧ (∀ key, key ≠ "z" → item' !! key = item !! key)
        ∧ item' !! "z" = if node_height then item !! "z"
                         else Some (VInt 0).
Proof.
  unfold adjust_node_height_data. destruct node_height; simpl.
  - split; [done|]. intros i item Hitem. by exists item.
  - split; [apply length_fmap|]. intros i item Hitem.
    exists (<["z" := VInt 0]> item). rewrite list_lookup_fmap, Hitem. simpl.
    split; [done|]. split; [|apply lookup_insert_eq].
    intros key Hkey. by rewrite lookup_insert_ne.
Qed.

(** ** [plot_3d] *)

Section Rendering.

Context (material_mapping : list (value * string)).
Context (material_colors : gmap string string).
Context (accepts : trace → bool).

Local Abbreviation plot :=
  (plot_3d material_mapping material_colors accepts).
Local Abbreviation prepare_styles :=
  (prepare_node_colors_and_sizes material_mapping material_colors).

Lemma io_bind_lift {A B} (r : result A) (k : A → io B) w :
  (lift r ≫= k) w
  = match r with Ok a => k a w | Raise e => (Raise e, w) end.
Proof. unfold mbind, io_bind, lift. by destruct r. Qed.

Lemma io_bind_logging {B} lvl msg (k : unit → io B) w :
  (logging lvl msg ≫= k) w = k () (World (log w ++ [(lvl, msg)]) (charts w)).
Proof. reflexivity. Qed.

Lemma io_bind_chart {B} fig (k : unit → io B) w :
  (st_plotly_chart fig ≫= k) w = k () (World (log w) (charts w ++ [fig])).
Proof. reflexivity. Qed.

(** Building and adding traces one after the other gives the figure with
    all of them when the backend accepts them all, and raises at the first
    it rejects. *)
Lemma checked_traces fig traces :
  for_each (add_checked accepts) fig traces
  = if forallb accepts traces
    then Ok (Figure (fig_data fig ++ traces) (fig_layout fig))
    else Raise ValueError.
Proof.
  revert fig. induction traces as [|t traces IH]; intros fig.
  - simpl. rewrite app_nil_r. by destruct fig.
  - cbn [for_each forallb].
    replace (add_checked accepts fig t)
      with (if accepts t then Ok (add_trace fig t) else Raise ValueError)
      by done.
    destruct (accepts t); [|done].
    rewrite bind_Ok, IH. cbn [add_trace fig_data fig_layout andb].
    by rewrite <- app_assoc.
Qed.

Lemma mode_traces_unrecognized plot_type symbol xs ys zs texts colors sizes :
  recognized plot_type = false →
  mode_traces plot_type symbol xs ys zs texts colors sizes = None.
Proof.
  unfold recognized, mode_traces. cbn [existsb].
  rewrite !orb_false_iff. by intros (-> & -> & -> & -> & _).
Qed.

Lemma mode_traces_recognized plot_type symbol xs ys zs texts colors sizes :
  recognized plot_type = true →
  is_Some (mode_traces plot_type symbol xs ys zs texts colors sizes).
Proof.
  unfold recognized, mode_traces. cbn [existsb].
  repeat (destruct (String.eqb plot_type _); [by eexists|]). done.
Qed.

(** [plot_3d] logs its first record, gathers its inputs, and draws; an
    exception while gathering ends the call there. *)
Lemma plot_3d_gather data plot_type symbol (f1 f2 f3 f4 : bool) s w :
  plot data plot_type symbol f1 f2 f3 f4 s w
  = match gather material_mapping material_colors data f1 f2 f3 f4 s with
    | Ok inputs =>
        draw accepts plot_type symbol f1 inputs (started plot_type w)
    | Raise e => (Raise e, started plot_type w)
    end.
Proof.
  unfold plot_3d, gather, started. rewrite io_bind_logging, io_bind_lift.
  destruct (comprehension (λ item, getitem item "x") data) as [xs|]; [|done].
  rewrite io_bind_lift, bind_Ok.
  destruct (comprehension (λ item, getitem item "y") data) as [ys|]; [|done].
  rewrite io_bind_lift, bind_Ok.
  destruct (comprehension (λ item, getitem item "z") data) as [zs|]; [|done].
  rewrite io_bind_lift, bind_Ok.
  destruct f1;
    [destruct (get_edges data) as [[[edge_x edge_y] edge_z]|]; [|done]|];
    rewrite bind_Ok, io_bind_lift;
    (destruct (prepare_hover_text data _ f2 f3 f4) as [texts|]; [|done]);
    rewrite io_bind_lift, bind_Ok;
    (destruct (prepare_styles data s) as [[colors sizes]|]; [|done]);
    rewrite bind_Ok; unfold draw;
    (destruct (mode_traces plot_type symbol xs ys zs texts colors sizes)
       as [traces|]; [|done]);
    rewrite io_bind_lift, checked_traces, ?forallb_app;
    (destruct (forallb accepts traces); [|done]);
    rewrite io_bind_lift; unfold add_checked; cbn [edge_trace forallb];
    rewrite ?andb_true_r, ?app_nil_r; cbn [andb fig_data new_figure app].
  - destruct (accepts _); [|done]. by rewrite io_bind_chart.
  - by rewrite io_bind_chart.
Qed.

(** What a call of [plot_3d] does once the three builders have returned. *)
Lemma plot_3d_run data plot_type symbol (f1 f2 f3 f4 : bool) s w xs ys zs
    (edges : coords) texts colors sizes :
  comprehension (λ item, getitem item "x") data = Ok xs →
  comprehension (λ item, getitem item "y") data = Ok ys →
  comprehension (λ item, getitem item "z") data = Ok zs →
  (if f1 then get_edges data else Ok ([], [], [])) = Ok edges →
  prepare_hover_text data f1 f2 f3 f4 = Ok texts →
  prepare_styles data s = Ok (colors, sizes) →
  plot data plot_type symbol f1 f2 f3 f4 s w
  = draw accepts plot_type symbol f1
      (xs, ys, zs, edges, texts, (colors, sizes)) (started plot_type w).
Proof.
  intros Hx Hy Hz Hedges Htexts Hstyles. rewrite plot_3d_gather.
  unfold gather. rewrite Hx, bind_Ok, Hy, bind_Ok, Hz, bind_Ok.
  destruct f1; rewrite Hedges, bind_Ok, Htexts, bind_Ok, Hstyles; done.
Qed.

Lemma getitem_column key data :
  Forall (λ item, has_key key item = true) data →
  comprehension (λ item, getitem item key) data
  = Ok ((λ item, item !!! key) <$> data).
Proof.
  induction 1 as [|item data Hitem%has_key_total _ IH]; [done|].
  cbn [comprehension]. rewrite IH. unfold getitem. by rewrite Hitem.
Qed.

Lemma renderable_inv f1 f2 f3 f4 item :
  renderable f1 f2 f3 f4 item = true →
  has_key "x" item = true ∧ has_key "y" item = true
  ∧ has_key "z" item = true ∧ describable f1 f2 f3 f4 item = true
  ∧ stylable item = true.
Proof.
  unfold renderable. rewrite !andb_true_iff. by intros [[[[? ?] ?] ?] ?].
Qed.

Lemma renderable_drawable f2 f3 f4 item :
  renderable true f2 f3 f4 item = true → drawable item = true.
Proof.
  intros (Hx & Hy & Hz & Hd & _)%renderable_inv.
  unfold describable in Hd. rewrite !andb_true_iff in Hd.
  destruct Hd as [[[[Hid Hedges] _] _] _].
  unfold drawable. rewrite Hid, Hx, Hy, Hz. simpl in *.
  unfold edges_of. unfold getitem in Hedges.
  by destruct (item !! "edges").
Qed.

(** On renderable records every stage of [plot_3d] returns. *)
Lemma renderable_stages data (f1 f2 f3 f4 : bool) s :
  Forall (λ item, renderable f1 f2 f3 f4 item = true) data →
  numeric s = true →
  ∃ (edges : coords) texts colors sizes,
    comprehension (λ item, getitem item "x") data
    = Ok ((λ item, item !!! "x") <$> data)
    ∧ comprehension (λ item, getitem item "y") data
      = Ok ((λ item, item !!! "y") <$> data)
    ∧ comprehension (λ item, getitem item "z") data
      = Ok ((λ item, item !!! "z") <$> data)
    ∧ (if f1 then get_edges data else Ok ([], [], [])) = Ok edges
    ∧ (f1 = true → get_edges data = Ok edges)
    ∧ prepare_hover_text data f1 f2 f3 f4 = Ok texts
    ∧ prepare_styles data s = Ok (colors, sizes).
Proof.
  intros Hall Hs.
  assert (∀ P : node → Prop,
            (∀ item, renderable f1 f2 f3 f4 item = true → P item) →
            Forall P data) as Hfrom.
  { intros P HP. eapply Forall_impl; [exact Hall | exact HP]. }
  assert (∃ edges : coords,
            (if f1 then get_edges data else Ok ([], [], [])) = Ok edges
            ∧ (f1 = true → get_edges data = Ok edges)) as (edges & He & He').
  { destruct f1; [|by eexists].
    eexists. split; [|intros _]; apply get_edges_drawable, Hfrom;
      intros item; apply renderable_drawable. }
  destruct (prepare_hover_text data f1 f2 f3 f4) as [texts|] eqn:Htexts;
    cycle 1.
  { pose proof (prepare_hover_text_ok data f1 f2 f3 f4) as Hok.
    rewrite Htexts in Hok. discriminate Hok. apply Hfrom.
    by intros item (_ & _ & _ & ? & _)%renderable_inv. }
  destruct (prepare_styles data s) as [[colors sizes]|] eqn:Hstyles; cycle 1.
  { pose proof (prepare_styles_ok material_mapping material_colors s data)
      as Hok.
    rewrite Hstyles in Hok. discriminate Hok; [|done]. apply Hfrom.
    by intros item (_ & _ & _ & _ & ?)%renderable_inv. }
  exists edges, texts, colors, sizes.
  repeat split; try done; apply getitem_column, Hfrom;
    by intros item (? & ? & ? & _)%renderable_inv.
Qed.

(** With an unrecognized mode no figure reaches [st.plotly_chart], whether
    or not a builder raised on the way. *)
Lemma unrecognized_no_chart data plot_type symbol (f1 f2 f3 f4 : bool) s w :
  recognized plot_type = false →
  charts (plot data plot_type symbol f1 f2 f3 f4 s w).2 = charts w.
Proof.
  intros Hmode. unfold plot_3d. rewrite io_bind_logging.
  rewrite io_bind_lift.
  destruct (comprehension (λ item, getitem item "x") data) as [xs|]; [|done].
  rewrite io_bind_lift.
  destruct (comprehension (λ item, getitem item "y") data) as [ys|]; [|done].
  rewrite io_bind_lift.
  destruct (comprehension (λ item, getitem item "z") data) as [zs|]; [|done].
  rewrite io_bind_lift.
  destruct (if f1 then get_edges data else Ok ([], [], []))
    as [[[edge_x edge_y] edge_z]|]; [|done].
  rewrite io_bind_lift.
  destruct (prepare_hover_text data f1 f2 f3 f4) as [texts|]; [|done].
  rewrite io_bind_lift.
  destruct (prepare_styles data s) as [[colors sizes]|]; [|done].
  by rewrite mode_traces_unrecognized.
Qed.

Lemma comprehension_fmap {A B C} (g : B → result C) (f : A → B) l :
  comprehension g (f <$> l) = comprehension (λ x, g (f x)) l.
Proof.
  induction l as [|x l IH]; [done|].
  rewrite fmap_cons. cbn [comprehension]. by rewrite IH.
Qed.

(** With [show_links] off no stage of [plot_3d] reads the ["edges"]
    entries. *)
Lemma hidden_links_ignore_edges data plot_type symbol (f2 f3 f4 : bool) s w :
  plot (delete "edges" <$> data) plot_type symbol false f2 f3 f4 s w
  = plot data plot_type symbol false f2 f3 f4 s w.
Proof.
  assert (∀ key, key ≠ "edges" →
            comprehension (λ item, getitem item key) (delete "edges" <$> data)
            = comprehension (λ item, getitem item key) data) as Hcol.
  { intros key Hkey. rewrite comprehension_fmap. apply comprehension_ext.
    intros item. unfold getitem. by rewrite lookup_delete_ne. }
  assert (prepare_hover_text (delete "edges" <$> data) false f2 f3 f4
          = prepare_hover_text data false f2 f3 f4) as Htexts.
  { unfold prepare_hover_text. rewrite for_each_fmap. apply for_each_ext.
    intros texts item. unfold hover_item, getitem.
    by rewrite !lookup_delete_ne. }
  assert (prepare_styles (delete "edges" <$> data) s = prepare_styles data s)
    as Hstyles.
  { unfold prepare_node_colors_and_sizes. rewrite for_each_fmap.
    apply for_each_ext. intros [colors sizes] item.
    unfold style_item, getitem. by rewrite !lookup_delete_ne. }
  unfold plot_3d. by rewrite !Hcol, Htexts, Hstyles.
Qed.

End Rendering.

(** C6. With a mode other than the four recognized ones [plot_3d] hands no
    figure to the renderer, whatever [show_links] is; on renderable records
    it returns normally, having logged the invalid mode as an error. *)
Theorem invalid_mode_draws_nothing
    (material_mapping : list (value * string))
    (material_colors : gmap string string) (accepts : trace → bool)
    (data : list node) (plot_type : string) (symbol : option string)
    (show_links show_material show_gamma_radius show_criteria : bool)
    (node_radius_size : value) (w : world) :
  recognized plot_type = false →
  charts (plot_3d material_mapping material_colors accepts data plot_type
            symbol show_links show_material show_gamma_radius show_criteria
            node_radius_size w).2
  = charts w
  ∧ (Forall (λ item, renderable show_links show_material show_gamma_radius
                       show_criteria item = true) data →
     numeric node_radius_size = true →
     plot_3d material_mapping material_colors accepts data plot_type symbol
       show_links show_material show_gamma_radius show_criteria
       node_radius_size w
     = (Ok tt,
        World (log w
               ++ [(INFO, "Generating 3D " +:+ plot_type +:+ " plot");
                   (ERROR, "Invalid plot type: " +:+ plot_type)])
          (charts w))).
Proof.
  intros Hmode. split; [by apply unrecognized_no_chart|].
  intros Hall Hs.
  destruct (renderable_stages material_mapping material_colors data
              show_links show_material show_gamma_radius show_criteria
              node_radius_size Hall Hs)
    as (edges & texts & colors & sizes & Hx & Hy & Hz & He & _ & Ht & Hst).
  rewrite (plot_3d_run _ _ _ _ _ _ _ _ _ _ _ _ _ _ _ _ _ _ _
             Hx Hy Hz He Ht Hst).
  unfold draw, started. rewrite mode_traces_unrecognized by done.
  cbn [log charts]. by rewrite <- app_assoc.
Qed.

Lemma invalid_mode_draws_nothing_witness :
  plot_3d [] ∅ example_backend [node_4] "torus" None true true true true
    (VInt 50) (World [] [])
  = (Ok tt,
     World [(INFO, "Generating 3D torus plot");
            (ERROR, "Invalid plot type: torus")] []).
Proof.
  apply (invalid_mode_draws_nothing [] ∅ example_backend [node_4] "torus"
           None true true true true (VInt 50) (World [] [])).
  - reflexivity.
  - repeat constructor.
  - reflexivity.
Defined.

(** C7. For a recognized mode, on renderable records: with [show_links] off
    the call is the same whatever the ["edges"] entries hold, and the traces
    built are those of the mode and no other; with [show_links] on they are
    the traces of the mode followed by the line trace of the sequences
    [get_edges] returned.  When the backend accepts the traces built, the
    figure handed to the renderer holds exactly them; when it rejects one,
    the call raises [ValueError] and nothing is drawn. *)
Theorem edges_drawn_only_on_request
    (material_mapping : list (value * string))
    (material_colors : gmap string string) (accepts : trace → bool)
    (data : list node) (plot_type : string) (symbol : option string)
    (show_links show_material show_gamma_radius show_criteria : bool)
    (node_radius_size : value) (w : world) :
  recognized plot_type = true →
  Forall (λ item, renderable show_links show_material show_gamma_radius
                    show_criteria item = true) data →
  numeric node_radius_size = true →
  (show_links = false →
   plot_3d material_mapping material_colors accepts
     (delete "edges" <$> data) plot_type symbol show_links show_material
     show_gamma_radius show_criteria node_radius_size w
   = plot_3d material_mapping material_colors accepts data plot_type symbol
       show_links show_material show_gamma_radius show_criteria
       node_radius_size w)
  ∧ ∃ texts colors sizes traces,
      prepare_hover_text data show_links show_material show_gamma_radius
        show_criteria = Ok texts
      ∧ prepare_node_colors_and_sizes material_mapping material_colors data
          node_radius_size = Ok (colors, sizes)
      ∧ mode_traces plot_type symbol ((λ item, item !!! "x") <$> data)
          ((λ item, item !!! "y") <$> data) ((λ item, item !!! "z") <$> data)
          texts colors sizes = Some traces
      ∧ ∃ drawn,
          (show_links = false → drawn = traces)
          ∧ (show_links = true →
             ∃ edges, get_edges data = Ok edges
               ∧ drawn = traces ++ [edge_trace edges])
          ∧ (forallb accepts drawn = true →
             plot_3d material_mapping material_colors accepts data plot_type
               symbol show_links show_material show_gamma_radius
               show_criteria node_radius_size w
             = (Ok tt,
                World (log w
                       ++ [(INFO, "Generating 3D " +:+ plot_type
                                  +:+ " plot");
                           (INFO, "3D " +:+ plot_type
                                  +:+ " plot generated successfully")])
                  (charts w ++ [Figure drawn (fig_layout new_figure)])))
          ∧ (forallb accepts drawn = false →
             plot_3d material_mapping material_colors accepts data plot_type
               symbol show_links show_material show_gamma_radius
               show_criteria node_radius_size w
             = (Raise ValueError,
                World (log w
                       ++ [(INFO, "Generating 3D " +:+ plot_type
                                  +:+ " plot")])
                  (charts w))).
Proof.
  intros Hmode Hall Hs. split.
  { intros ->. apply hidden_links_ignore_edges. }
  destruct (renderable_stages material_mapping material_colors data
              show_links show_material show_gamma_radius show_criteria
              node_radius_size Hall Hs)
    as (edges & texts & colors & sizes & Hx & Hy & Hz & He & He' & Ht & Hst).
  destruct (mode_traces_recognized plot_type symbol
              ((λ item, item !!! "x") <$> data)
              ((λ item, item !!! "y") <$> data)
              ((λ item, item !!! "z") <$> data) texts colors sizes Hmode)
    as [traces Htraces].
  exists texts, colors, sizes, traces.
  split; [done|]. split; [done|]. split; [done|].
  rewrite (plot_3d_run _ _ _ _ _ _ _ _ _ _ _ _ _ _ _ _ _ _ _
             Hx Hy Hz He Ht Hst).
  unfold draw, started. rewrite Htraces. cbn [log charts].
  exists (traces ++ if show_links then [edge_trace edges] else []).
  split; [|split; [|split]].
  - intros ->. by rewrite app_nil_r.
  - intros ->. exists edges. split; [by apply He' | done].
  - intros ->. by rewrite <- app_assoc.
  - by intros ->.
Qed.

Lemma edges_drawn_only_on_request_witness :
  (∃ drawn,
     plot_3d [] ∅ example_backend [node_4] "line" None true false false
       false (VInt 50) (World [] [])
     = (Ok tt,
        World [(INFO, "Generating 3D line plot");
               (INFO, "3D line plot generated successfully")]
          [Figure drawn (fig_layout new_figure)])
     ∧ last drawn
       = Some (edge_trace ([VInt 1; VInt 1; VNone], [VInt 2; VInt 2; VNone],
                           [VInt 3; VInt 3; VNone])))
  ∧ plot_3d [] ∅ example_backend [<["radius" := VInt (-2)]> node_4] "line"
      None true false false false (VInt 50) (World [] [])
    = (Raise ValueError, World [(INFO, "Generating 3D line plot")] []).
Proof.
  split.
  - destruct (edges_drawn_only_on_request [] ∅ example_backend [node_4]
                "line" None true false false false (VInt 50) (World [] []))
      as (_ & texts & colors & sizes & traces & Ht & Hs & Hm
          & drawn & _ & Hdrawn & Hok & _);
      [reflexivity | repeat constructor | reflexivity |].
    destruct (Hdrawn eq_refl) as (edges & Hedges & ->). clear Hdrawn.
    vm_compute in Hedges. injection Hedges as <-.
    vm_compute in Ht. injection Ht as <-.
    vm_compute in Hs. injection Hs as <- <-.
    vm_compute in Hm. injection Hm as <-.
    eexists. split; [apply Hok; vm_compute; reflexivity|].
    apply last_snoc.
  - destruct (edges_drawn_only_on_request [] ∅ example_backend
                [<["radius" := VInt (-2)]> node_4] "line" None
                true false false false (VInt 50) (World [] []))
      as (_ & texts & colors & sizes & traces & Ht & Hs & Hm
          & drawn & _ & Hdrawn & _ & Hraise);
      [reflexivity | repeat constructor | reflexivity |].
    destruct (Hdrawn eq_refl) as (edges & Hedges & ->). clear Hdrawn.
    vm_compute in Hedges. injection Hedges as <-.
    vm_compute in Ht. injection Ht as <-.
    vm_compute in Hs. injection Hs as <- <-.
    vm_compute in Hm. injection Hm as <-.
    apply Hraise. vm_compute. reflexivity.
Defined.

(** * Further properties *)

#[local] Set Warnings "-clear-no-such-hyp".

(** ** Loops *)

Lemma for_each_app {A S} (body : S → A → result S) acc l1 l2 :
  for_each body acc (l1 ++ l2)
  = (for_each body acc l1 ≫= λ acc', for_each body acc' l2).
Proof.
  revert acc. induction l1 as [|x l1 IH]; intros acc; simpl; [done|].
  destruct (body acc x) as [acc'|e]; simpl; [apply IH | done].
Qed.

(** As [for_each_invariant], for a body that keeps the property on the
    elements of the list only. *)
Lemma for_each_invariant_in {A S} (P : S → Prop) (body : S → A → result S) l :
  (∀ acc x acc', x ∈ l → P acc → body acc x = Ok acc' → P acc') →
  ∀ acc acc', P acc → for_each body acc l = Ok acc' → P acc'.
Proof.
  induction l as [|x l IH]; intros Hbody acc acc' HP Hrun; simpl in *.
  - by simplify_eq.
  - apply bind_Ok_inv in Hrun as (acc1 & Hx & Hrest).
    apply (IH (λ a y a' Hy, Hbody a y a' (list_elem_of_further _ _ _ Hy))
             acc1 acc'); [|done].
    apply (Hbody acc x acc1); [left | done | done].
Qed.


(** A loop that returns ran its body to the end on every element. *)
Lemma for_each_ok_body {A S} (body : S → A → result S) l acc acc' x :
  for_each body acc l = Ok acc' → x ∈ l →
  ∃ a a', body a x = Ok a'.
Proof.
  revert acc. induction l as [|y l IH]; intros acc Hrun Hx; simpl in *.
  - by apply elem_of_nil in Hx.
  - apply bind_Ok_inv in Hrun as (acc1 & Hy & Hrest).
    apply elem_of_cons in Hx as [->|Hx]; [eauto | by eapply IH].
Qed.

(** ** [get_edges]: what the output is made of *)

Lemma extend_edge_inv item t xs ys zs acc' :
  extend_edge item t (xs, ys, zs) = Ok acc' →
  (∀ key, key ∈ ["x"; "y"; "z"] →
     has_key key item = true ∧ has_key key t = true)
  ∧ acc' = (xs ++ triple "x" (item, t), ys ++ triple "y" (item, t),
            zs ++ triple "z" (item, t)).
Proof.
  unfold extend_edge, getitem, triple, has_key. simpl.
  rewrite !lookup_total_alt.
  destruct (item !! "x") eqn:Hix; [|done].
  destruct (t !! "x") eqn:Htx; [|done].
  destruct (item !! "y") eqn:Hiy; [|done].
  destruct (t !! "y") eqn:Hty; [|done].
  destruct (item !! "z") eqn:Hiz; [|done].
  destruct (t !! "z") eqn:Htz; [|done].
  simpl. intros [= <-]. split; [|done].
  intros key. rewrite !elem_of_cons, elem_of_nil.
  intros [->|[->|[->|[]]]].
  - by rewrite Hix, Htx.
  - by rewrite Hiy, Hty.
  - by rewrite Hiz, Htz.
Qed.

Lemma visit_edge_joined data item acc edge acc' :
  item ∈ data → edge ∈ edge_ids item →
  joined data acc → visit_edge data item acc edge = Ok acc' →
  joined data acc'.
Proof.
  intros Hitem Hedge (pairs & Hpairs & ->). unfold visit_edge.
  intros ([t|] & Hfind & Hrun)%bind_Ok_inv; cycle 1.
  { simplify_eq. by exists pairs. }
  destruct (dict_truthy t); cycle 1.
  { simplify_eq. by exists pairs. }
  apply next_node_found in Hfind as [Ht Hm].
  apply extend_edge_inv in Hrun as [Hkeys ->].
  exists (pairs ++ [(item, t)]). split.
  - apply Forall_app. split; [done|]. apply Forall_singleton.
    split; [done|]. split; [done|]. split; [by exists edge | done].
  - by rewrite !flat_map_app.
Qed.

Lemma visit_item_joined data acc item acc' :
  item ∈ data → joined data acc → visit_item data acc item = Ok acc' →
  joined data acc'.
Proof.
  intros Hitem Hacc. rewrite visit_item_edges_of.
  intros (edges & Hedges & Hrun)%bind_Ok_inv.
  apply (for_each_invariant_in (joined data) (visit_edge data item) edges)
    with (acc := acc); [|done|done].
  intros a e a' He. apply visit_edge_joined; [done|].
  unfold edge_ids. by rewrite Hedges.
Qed.

Lemma get_edges_joined data acc :
  get_edges data = Ok acc → joined data acc.
Proof.
  apply (for_each_invariant_in (joined data) (visit_item data) data).
  - intros a item a' Hitem. by apply visit_item_joined.
  - by exists [].
Qed.

Lemma triples_length key (pairs : list (node * node)) :
  length (flat_map (triple key) pairs) = (3 * length pairs)%nat.
Proof. induction pairs as [|p pairs IH]; simpl; [done|]. rewrite IH. lia. Qed.

Lemma triples_lookup key (pairs : list (node * node)) i pair :
  pairs !! i = Some pair →
  flat_map (triple key) pairs !! (3 * i)%nat = Some (pair.1 !!! key)
  ∧ flat_map (triple key) pairs !! (3 * i + 1)%nat = Some (pair.2 !!! key)
  ∧ flat_map (triple key) pairs !! (3 * i + 2)%nat = Some VNone.
Proof.
  revert i. induction pairs as [|p pairs IH]; intros i Hi; [done|].
  destruct i as [|i]; simpl in Hi.
  - by simplify_eq.
  - destruct (IH i Hi) as (H0 & H1 & H2).
    replace (3 * S i)%nat with (S (S (S (3 * i)))) by lia.
    replace (S (S (S (3 * i))) + 1)%nat with (S (S (S (3 * i + 1)))) by lia.
    replace (S (S (S (3 * i))) + 2)%nat with (S (S (S (3 * i + 2)))) by lia.
    done.
Qed.

(** X1. Whatever [get_edges] returns is made of segments that join two
    records of the list: the source lists an id that names the target, both
    carry the three coordinates, and the three sequences hold the
    coordinates of the same pairs in the same order. *)
Theorem get_edges_joins_listed_records (data : list node) xs ys zs :
  get_edges data = Ok (xs, ys, zs) →
  ∃ pairs, Forall (linked data) pairs
    ∧ xs = flat_map (triple "x") pairs
    ∧ ys = flat_map (triple "y") pairs
    ∧ zs = flat_map (triple "z") pairs.
Proof.
  intros (pairs & Hpairs & [= -> -> ->])%get_edges_joined. by exists pairs.
Qed.

Lemma get_edges_joins_listed_records_witness :
  ∃ pairs, Forall (linked [node_1; node_3]) pairs
    ∧ [VInt 7; VInt 0; VNone] = flat_map (triple "x") pairs.
Proof.
  destruct (get_edges_joins_listed_records [node_1; node_3]
              [VInt 7; VInt 0; VNone] [VInt 8; VInt 0; VNone]
              [VInt 9; VInt 0; VNone])
    as (pairs & Hpairs & Hx & _); [vm_compute; reflexivity|].
  by exists pairs.
Defined.

(** X2. In each sequence [get_edges] returns, the length is a multiple of
    three and every third entry is the sentinel [None]; the three sequences
    have the same number of segments. *)
Theorem get_edges_sentinels (data : list node) xs ys zs :
  get_edges data = Ok (xs, ys, zs) →
  ∃ n, length xs = (3 * n)%nat ∧ length ys = (3 * n)%nat
    ∧ length zs = (3 * n)%nat
    ∧ ∀ i, (i < n)%nat →
        xs !! (3 * i + 2)%nat = Some VNone
        ∧ ys !! (3 * i + 2)%nat = Some VNone
        ∧ zs !! (3 * i + 2)%nat = Some VNone.
Proof.
  intros (pairs & _ & [= -> -> ->])%get_edges_joined.
  exists (length pairs). rewrite !triples_length.
  split; [done|]. split; [done|]. split; [done|]. intros i Hi.
  destruct (lookup_lt_is_Some_2 pairs i Hi) as [pair Hpair].
  destruct (triples_lookup "x" _ _ _ Hpair) as (_ & _ & ?).
  destruct (triples_lookup "y" _ _ _ Hpair) as (_ & _ & ?).
  by destruct (triples_lookup "z" _ _ _ Hpair) as (_ & _ & ?).
Qed.

Lemma get_edges_sentinels_witness :
  ∃ n, length [VInt 7; VInt 0; VNone] = (3 * n)%nat
    ∧ ∀ i, (i < n)%nat →
        [VInt 7; VInt 0; VNone] !! (3 * i + 2)%nat = Some VNone.
Proof.
  destruct (get_edges_sentinels [node_1; node_3]
              [VInt 7; VInt 0; VNone] [VInt 8; VInt 0; VNone]
              [VInt 9; VInt 0; VNone])
    as (n & Hx & _ & _ & Hnth); [vm_compute; reflexivity|].
  exists n. split; [done|]. intros i Hi. by destruct (Hnth i Hi).
Defined.

(** ** [get_edges]: what it reads, how it composes, how it fails *)

Lemma get_edges_over_fmap (f : node → node) (data items : list node) acc :
  (∀ n key, key ∈ ["id"; "x"; "y"; "z"; "edges"] → f n !! key = n !! key) →
  for_each (visit_item (f <$> data)) acc (f <$> items)
  = for_each (visit_item data) acc items.
Proof.
  intros Hkeep. rewrite for_each_fmap. apply for_each_ext.
  intros a item. unfold visit_item. rewrite Hkeep by set_solver.
  destruct (item !! "edges") as [edges|]; [|done].
  destruct (py_iter edges) as [es|]; [|done]. simpl.
  apply for_each_ext. intros a' e. apply visit_edge_fmap.
  intros n key Hkey. apply Hkeep. set_solver.
Qed.

(** X3. [get_edges] reads the id, the position and the adjacency entry of a
    record and nothing else: a change of the records that keeps these five
    entries changes neither its result nor its exception. *)
Theorem get_edges_reads_five_keys (f : node → node) (data : list node) :
  (∀ n key, key ∈ ["id"; "x"; "y"; "z"; "edges"] → f n !! key = n !! key) →
  get_edges (f <$> data) = get_edges data.
Proof. intros Hkeep. by apply get_edges_over_fmap. Qed.

Lemma get_edges_reads_five_keys_witness :
  get_edges (delete "material" <$> [node_1; node_2])
  = get_edges [node_1; node_2].
Proof.
  apply (get_edges_reads_five_keys (delete "material")).
  intros n key Hkey. apply lookup_delete_ne. set_solver.
Defined.

Lemma coords_app_assoc a b c :
  coords_app (coords_app a b) c = coords_app a (coords_app b c).
Proof.
  destruct a as [[??]?], b as [[??]?], c as [[??]?]. simpl.
  by rewrite <- !app_assoc.
Qed.

Lemma coords_app_nil_r a : coords_app a ([], [], []) = a.
Proof. destruct a as [[??]?]. simpl. by rewrite !app_nil_r. Qed.

Lemma coords_app_nil_l a : coords_app ([], [], []) a = a.
Proof. by destruct a as [[??]?]. Qed.

(** A loop whose body only appends to the accumulators can be run from
    empty accumulators and appended afterwards. *)
Lemma for_each_shift {A} (body : coords → A → result coords) :
  (∀ acc x, body acc x
            = (body ([], [], []) x ≫= λ o, Ok (coords_app acc o))) →
  ∀ l acc, for_each body acc l
           = (for_each body ([], [], []) l ≫= λ o, Ok (coords_app acc o)).
Proof.
  intros Hbody. induction l as [|x l IH]; intros acc; simpl.
  - by rewrite coords_app_nil_r.
  - rewrite (Hbody acc x). destruct (body ([], [], []) x) as [o|e]; [|done].
    simpl. rewrite (IH (coords_app acc o)), (IH o).
    destruct (for_each body ([], [], []) l) as [o'|e]; [|done]. simpl.
    by rewrite coords_app_assoc.
Qed.

Lemma visit_edge_shift data item acc edge :
  visit_edge data item acc edge
  = (visit_edge data item ([], [], []) edge ≫= λ o, Ok (coords_app acc o)).
Proof.
  unfold visit_edge. destruct (next_node data edge) as [[t|]|]; simpl.
  - destruct (dict_truthy t); simpl; [|by rewrite coords_app_nil_r].
    destruct acc as [[xs ys] zs]. unfold extend_edge, getitem.
    by destruct (item !! "x"), (t !! "x"), (item !! "y"), (t !! "y"),
      (item !! "z"), (t !! "z").
  - by rewrite coords_app_nil_r.
  - done.
Qed.

Lemma visit_item_shift data acc item :
  visit_item data acc item
  = (visit_item data ([], [], []) item ≫= λ o, Ok (coords_app acc o)).
Proof.
  unfold visit_item. destruct (item !! "edges") as [edges|]; cycle 1.
  { simpl. by rewrite coords_app_nil_r. }
  destruct (py_iter edges) as [es|]; [|done]. simpl.
  apply for_each_shift. intros a e. apply visit_edge_shift.
Qed.

(** X4. The outer loop of [get_edges] is a concatenation: the output for
    [items1 ++ items2] is the output for [items1] followed by the output for
    [items2], and an exception of either part is the exception of the
    whole, that of [items1] first. *)
Theorem get_edges_over_app (data items1 items2 : list node) :
  get_edges_over data (items1 ++ items2)
  = (out1 ← get_edges_over data items1;
     out2 ← get_edges_over data items2;
     Ok (coords_app out1 out2)).
Proof.
  unfold get_edges_over. rewrite for_each_app.
  destruct (for_each (visit_item data) ([], [], []) items1) as [out1|e];
    [|done].
  simpl. apply for_each_shift. intros acc item. apply visit_item_shift.
Qed.





Lemma next_node_unresolved data edge o :
  next_node data edge = Ok o → resolvable data edge = false →
  Forall (λ n, has_key "id" n = true) data.
Proof.
  unfold resolvable. revert o.
  induction data as [|n data IH]; intros o; simpl; [done|].
  unfold getitem, matches, has_key.
  destruct (n !! "id") as [id|] eqn:Hid; [|done]. simpl.
  destruct (py_eq id edge); [done|]. simpl. intros Hfind Hres.
  constructor; [by rewrite Hid | by eapply IH].
Qed.

(** X6. A dangling edge id is skipped only after the whole list was
    searched for it: if [get_edges] returns and some record lists an id that
    names no record, then every record of the list has an ["id"]. *)
Theorem dangling_edge_needs_all_ids (data : list node) acc item edge :
  get_edges data = Ok acc →
  item ∈ data → edge ∈ edge_ids item → resolvable data edge = false →
  Forall (λ n, has_key "id" n = true) data.
Proof.
  intros Hrun Hitem Hedge Hres.
  destruct (for_each_ok_body _ _ _ _ _ Hrun Hitem) as (a & a' & Hvisit).
  rewrite visit_item_edges_of in Hvisit.
  apply bind_Ok_inv in Hvisit as (es & Hes & Hloop).
  unfold edge_ids in Hedge. rewrite Hes in Hedge.
  destruct (for_each_ok_body _ _ _ _ _ Hloop Hedge) as (b & b' & Hstep).
  unfold visit_edge in Hstep.
  apply bind_Ok_inv in Hstep as (o & Hfind & _).
  by eapply next_node_unresolved.
Qed.

Lemma dangling_edge_needs_all_ids_witness :
  Forall (λ n, has_key "id" n = true) [node_1; node_3].
Proof.
  apply (dangling_edge_needs_all_ids [node_1; node_3]
           ([VInt 7; VInt 0; VNone], [VInt 8; VInt 0; VNone],
            [VInt 9; VInt 0; VNone]) node_3 (VInt 42)).
  - vm_compute. reflexivity.
  - set_solver.
  - vm_compute. set_solver.
  - vm_compute. reflexivity.
Defined.

(** ** [adjust_node_height_data] and the builders *)

(** X7. Two calls of [adjust_node_height_data] in a row are one call with
    the conjunction of the flags: once flattened, the heights stay flat. *)
Theorem adjust_height_twice (data : list node) (first second : bool) :
  adjust_node_height_data (adjust_node_height_data data first) second
  = adjust_node_height_data data (first && second).
Proof.
  unfold adjust_node_height_data. destruct first, second; simpl; try done.
  rewrite <- list_fmap_compose. apply list_fmap_ext.
  intros _ item _. simpl. apply insert_insert_eq.
Qed.

Lemma getitem_column_fmap (f : node → node) (data : list node) key :
  (∀ n, f n !! key = n !! key) →
  comprehension (λ item, getitem item key) (f <$> data)
  = comprehension (λ item, getitem item key) data.
Proof.
  intros Hkeep. rewrite comprehension_fmap. apply comprehension_ext.
  intros item. unfold getitem. by rewrite Hkeep.
Qed.

Lemma flat_z_column (data : list node) :
  comprehension (λ item, getitem item "z")
    ((λ item, <["z" := VInt 0]> item) <$> data)
  = Ok (replicate (length data) (VInt 0)).
Proof.
  induction data as [|item data IH]; [done|].
  rewrite fmap_cons. cbn [comprehension]. rewrite IH.
  unfold getitem. by rewrite lookup_insert_eq.
Qed.

(** X8. With the flag off the column of heights that [plot_3d] reads is all
    zeros and reading it cannot raise, whether or not the records had a
    ["z"]; every other column is read as before the call, with either
    flag. *)
Theorem adjust_height_columns (data : list node) (node_height : bool) :
  comprehension (λ item, getitem item "z")
    (adjust_node_height_data data false)
  = Ok (replicate (length data) (VInt 0))
  ∧ ∀ key, key ≠ "z" →
      comprehension (λ item, getitem item key)
        (adjust_node_height_data data node_height)
      = comprehension (λ item, getitem item key) data.
Proof.
  unfold adjust_node_height_data. split.
  - apply flat_z_column.
  - intros key Hkey. destruct node_height; simpl; [done|].
    apply getitem_column_fmap. intros n. by apply lookup_insert_ne.
Qed.

(** ** [prepare_hover_text]: what it reads, how it fails *)

Lemma hover_item_fmap (f : node → node) f1 f2 f3 f4 item :
  (∀ key, key ∈ hover_reads f1 f2 f3 f4 → f item !! key = item !! key) →
  hover_item f1 f2 f3 f4 (f item) = hover_item f1 f2 f3 f4 item.
Proof.
  intros Hkeep. unfold hover_item, getitem.
  rewrite (Hkeep "id") by (unfold hover_reads; set_solver).
  destruct (item !! "id") as [id|]; [|done].
  destruct f1, f2, f3, f4; cbn -[String.append];
    rewrite ?(Hkeep "edges"), ?(Hkeep "material"), ?(Hkeep "gamma"),
      ?(Hkeep "radius"), ?(Hkeep "criteria")
      by (unfold hover_reads; set_solver);
    done.
Qed.

(** X9. [prepare_hover_text] reads the id and the fields of the enabled
    sections and nothing else: a change of the records that keeps these
    entries changes neither its result nor its exception. *)
Theorem hover_text_reads_enabled_fields (f : node → node) (data : list node)
    (show_links show_material show_gamma_radius show_criteria : bool) :
  (∀ n key,
     key ∈ hover_reads show_links show_material show_gamma_radius
             show_criteria →
     f n !! key = n !! key) →
  prepare_hover_text (f <$> data) show_links show_material show_gamma_radius
    show_criteria
  = prepare_hover_text data show_links show_material show_gamma_radius
      show_criteria.
Proof.
  intros Hkeep. unfold prepare_hover_text. rewrite for_each_fmap.
  apply for_each_ext. intros texts item.
  by rewrite hover_item_fmap by (intros key; apply Hkeep).
Qed.

Lemma hover_text_reads_enabled_fields_witness :
  prepare_hover_text (delete "material" <$> [node_1; node_2])
    true false false false
  = prepare_hover_text [node_1; node_2] true false false false.
Proof.
  apply (hover_text_reads_enabled_fields (delete "material")).
  intros n key Hkey. apply lookup_delete_ne. vm_compute in Hkey. set_solver.
Defined.

Lemma comprehension_raise {A B} (f : A → result B) l e :
  comprehension f l = Raise e → ∃ x, x ∈ l ∧ f x = Raise e.
Proof.
  induction l as [|x l IH]; simpl; [done|].
  destruct (f x) as [y|e'] eqn:Hx; simpl.
  - destruct (comprehension f l) as [ys|e'']; simpl; [done|].
    intros [= <-]. destruct (IH eq_refl) as (x' & Hx' & Hraise).
    exists x'. split; [by right | done].
  - intros [= <-]. exists x. split; [left | done].
Qed.

Lemma getitem_raise item key e :
  getitem item key = Raise e → e = KeyError key ∧ item !! key = None.
Proof. unfold getitem. destruct (item !! key); [done|]. by intros [= <-]. Qed.

Lemma py_iter_raise v e : py_iter v = Raise e → e = TypeError.
Proof. destruct v; simpl; congruence. Qed.

(** Why a section of the hover text raises. *)
Lemma section_raise f1 f2 f3 f4 (section : node → result string) item e :
  section ∈ enabled_sections f1 f2 f3 f4 → section item = Raise e →
  (e = TypeError ∧ f1 = true
   ∧ ∃ v, item !! "edges" = Some v ∧ py_iter v = Raise TypeError)
  ∨ (∃ key, key ∈ hover_reads f1 f2 f3 f4 ∧ e = KeyError key
       ∧ item !! key = None).
Proof.
  unfold enabled_sections. rewrite !elem_of_app.
  intros [Hin|[Hin|[Hin|Hin]]] Hraise.
  - destruct f1; [|by apply elem_of_nil in Hin].
    apply list_elem_of_singleton in Hin as ->. unfold links_section in Hraise.
    destruct (getitem item "edges") as [v|e'] eqn:Hv; simpl in Hraise.
    + destruct (py_iter v) as [es|e'] eqn:Hiter; [done|]. simpl in Hraise.
      left. simplify_eq. apply py_iter_raise in Hiter as Heq. subst e.
      split; [done|]. split; [done|]. exists v. split; [|done].
      unfold getitem in Hv. by destruct (item !! "edges"); simplify_eq.
    + simplify_eq. apply getitem_raise in Hv as [-> Hnone].
      right. exists "edges". unfold hover_reads. split; [set_solver | done].
  - destruct f2; [|by apply elem_of_nil in Hin].
    apply list_elem_of_singleton in Hin as ->.
    unfold material_section in Hraise.
    destruct (getitem item "material") eqn:Hv; [done|].
    simpl in Hraise. simplify_eq. apply getitem_raise in Hv as [-> Hnone].
    right. exists "material". unfold hover_reads.
    split; [destruct f1; set_solver | done].
  - destruct f3; [|by apply elem_of_nil in Hin].
    apply list_elem_of_singleton in Hin as ->.
    unfold gamma_radius_section in Hraise.
    destruct (getitem item "gamma") eqn:Hg; simpl in Hraise; cycle 1.
    { simplify_eq. apply getitem_raise in Hg as [-> Hnone].
      right. exists "gamma". unfold hover_reads.
      split; [destruct f1, f2; set_solver | done]. }
    destruct (getitem item "radius") eqn:Hr; [done|].
    simpl in Hraise. simplify_eq. apply getitem_raise in Hr as [-> Hnone].
    right. exists "radius". unfold hover_reads.
    split; [destruct f1, f2; set_solver | done].
  - destruct f4; [|by apply elem_of_nil in Hin].
    apply list_elem_of_singleton in Hin as ->.
    unfold criteria_section in Hraise.
    destruct (getitem item "criteria") eqn:Hv; [done|].
    simpl in Hraise. simplify_eq. apply getitem_raise in Hv as [-> Hnone].
    right. exists "criteria". unfold hover_reads.
    split; [destruct f1, f2, f3; set_solver | done].
Qed.

(** X10. On records whose entries are printable (integers of at most 4300
    digits, lists nested no deeper than 50: beyond that [str] itself has
    exceptions of its own, which are left aside here),
    [prepare_hover_text] raises for two reasons only: a [KeyError] for a
    key it reads under the given flags, which some record lacks, or, with
    [show_links] on, a [TypeError] because the adjacency entry of some
    record is not a sequence. *)
Theorem hover_text_raises_for_a_reason (data : list node)
    (show_links show_material show_gamma_radius show_criteria : bool)
    (e : exn) :
  forallb (printable_record show_links show_material show_gamma_radius
             show_criteria) data = true →
  prepare_hover_text data show_links show_material show_gamma_radius
    show_criteria = Raise e →
  (e = TypeError ∧ show_links = true
   ∧ ∃ item v, item ∈ data ∧ item !! "edges" = Some v
       ∧ py_iter v = Raise TypeError)
  ∨ (∃ key,
       key ∈ hover_reads show_links show_material show_gamma_radius
               show_criteria
       ∧ e = KeyError key ∧ ∃ item, item ∈ data ∧ item !! key = None).
Proof.
  intros _. rewrite prepare_hover_text_spec.
  intros (item & Hitem & Hraise)%comprehension_raise.
  unfold hover_text_spec in Hraise.
  destruct (getitem item "id") as [id|e'] eqn:Hid; simpl in Hraise; cycle 1.
  { simplify_eq. apply getitem_raise in Hid as [-> Hnone].
    right. exists "id". unfold hover_reads. split; [set_solver|]. eauto. }
  destruct (comprehension _ (enabled_sections _ _ _ _)) as [secs|e']
    eqn:Hsecs; [done|].
  simpl in Hraise. simplify_eq.
  apply comprehension_raise in Hsecs as (section & Hin & Hsec).
  destruct (section_raise _ _ _ _ _ _ _ Hin Hsec)
    as [(-> & -> & v & Hv & Hiter)|(key & Hkey & -> & Hnone)].
  - left. split; [done|]. split; [done|]. by exists item, v.
  - right. exists key. eauto.
Qed.

Lemma hover_text_raises_for_a_reason_witness :
  ∃ key, key ∈ hover_reads false false true false
    ∧ ∃ item, item ∈ [node_1] ∧ item !! key = None.
Proof.
  destruct (hover_text_raises_for_a_reason [node_1] false false true false
              (KeyError "gamma"))
    as [(Habs & _)|(key & Hkey & _ & Hitem)].
  - vm_compute. reflexivity.
  - vm_compute. reflexivity.
  - discriminate Habs.
  - by exists key.
Defined.

(** ** [prepare_node_colors_and_sizes]: what it reads, how it fails *)

Section StyleFacts.

Context (material_mapping : list (value * string)).
Context (material_colors : gmap string string).

Local Abbreviation style_of := (node_style material_mapping material_colors).

Lemma prepare_styles_comprehension data s :
  prepare_node_colors_and_sizes material_mapping material_colors
    data s
  = (comprehension (style_of s) data ≫= λ l, Ok (l.*1, l.*2)).
Proof.
  unfold prepare_node_colors_and_sizes.
  by rewrite (styles_loop material_mapping material_colors s data [] []).
Qed.

Lemma prepare_styles_lookup data s colors sizes :
  prepare_node_colors_and_sizes material_mapping material_colors
    data s = Ok (colors, sizes) →
  length colors = length data ∧ length sizes = length data
  ∧ ∀ i item, data !! i = Some item →
      ∃ c z, style_of s item = Ok (c, z)
        ∧ colors !! i = Some c ∧ sizes !! i = Some z.
Proof.
  rewrite prepare_styles_comprehension.
  intros (l & [Hlen Hnth]%comprehension_lookup & [= <- <-])%bind_Ok_inv.
  rewrite !length_fmap. split; [done|]. split; [done|].
  intros i item Hitem. destruct (Hnth i item Hitem) as ([c z] & Hstyle & Hi).
  exists c, z. by rewrite !list_lookup_fmap, Hi.
Qed.

Lemma lookup_key_elem {V} (d : list (value * V)) key v :
  lookup_key d key = Some v → ∃ k, (k, v) ∈ d ∧ py_eq k key = true.
Proof.
  induction d as [|[k' v'] d IH]; simpl; [done|].
  destruct (py_eq k' key) eqn:Heq.
  - intros [= <-]. exists k'. split; [left | done].
  - intros (k & Hk & Hm)%IH. exists k. split; [by right | done].
Qed.

(** X11. Every colour [prepare_node_colors_and_sizes] returns is either the
    fallback ["purple"] or the colour-table entry of a class that is
    ["UNKNOWN"] or a class the name table maps some code to. *)
Theorem colors_come_from_the_tables (data : list node) s colors sizes :
  prepare_node_colors_and_sizes material_mapping material_colors
    data s = Ok (colors, sizes) →
  Forall
    (λ c, c = "purple"
          ∨ ∃ class, material_colors !! class = Some c
              ∧ (class = "UNKNOWN"
                 ∨ ∃ code, (code, class) ∈ material_mapping))
    colors.
Proof.
  intros (Hlen & _ & Hnth)%prepare_styles_lookup.
  apply Forall_lookup. intros i c Hc.
  destruct (lookup_lt_is_Some_2 data i) as [item Hitem].
  { rewrite <- Hlen. by eapply lookup_lt_Some. }
  destruct (Hnth i item Hitem) as (c' & z & Hstyle & Hc' & _).
  simplify_eq. unfold node_style, dict_get in Hstyle.
  destruct (getitem item "material") as [material|]; [|done].
  simpl in Hstyle. destruct (hashable material); [|done]. simpl in Hstyle.
  destruct (getitem item "radius") as [radius|]; [|done]. simpl in Hstyle.
  destruct (py_mul radius s); [|done]. simpl in Hstyle.
  injection Hstyle as <- _.
  destruct (lookup_key material_mapping material) as [class|] eqn:Hclass;
    simpl.
  - destruct (material_colors !! class) as [c|] eqn:Hcol; [|by left].
    right. exists class. split; [done|]. right.
    apply lookup_key_elem in Hclass as (code & Hcode & _). by exists code.
  - destruct (material_colors !! "UNKNOWN") as [c|] eqn:Hcol; [|by left].
    right. exists "UNKNOWN". split; [done | by left].
Qed.

Lemma node_style_fmap (f : node → node) s item :
  (∀ key, key ∈ ["material"; "radius"] → f item !! key = item !! key) →
  style_of s (f item) = style_of s item.
Proof.
  intros Hkeep. unfold node_style, getitem.
  by rewrite !Hkeep by set_solver.
Qed.

Lemma prepare_styles_fmap (f : node → node) (data : list node) s :
  (∀ n key, key ∈ ["material"; "radius"] → f n !! key = n !! key) →
  prepare_node_colors_and_sizes material_mapping material_colors
    (f <$> data) s
  = prepare_node_colors_and_sizes material_mapping material_colors data s.
Proof.
  intros Hkeep. rewrite !prepare_styles_comprehension, comprehension_fmap.
  f_equal. apply comprehension_ext. intros item.
  apply node_style_fmap. intros key. apply Hkeep.
Qed.

(** X12. [prepare_node_colors_and_sizes] reads the material and the radius
    of a record and nothing else: a change of the records that keeps these
    two entries changes neither its result nor its exception. *)
Theorem styles_read_material_and_radius (f : node → node) (data : list node)
    (s : value) :
  (∀ n key, key ∈ ["material"; "radius"] → f n !! key = n !! key) →
  prepare_node_colors_and_sizes material_mapping material_colors
    (f <$> data) s
  = prepare_node_colors_and_sizes material_mapping material_colors data s.
Proof. apply prepare_styles_fmap. Qed.

(** X13. With a size factor the slider offers (an integer from 10 to 100,
    so that repeating a sequence that many times is within the
    interpreter's range; running out of memory is left aside),
    [prepare_node_colors_and_sizes] raises for two reasons only: a
    [KeyError] for ["material"] or ["radius"], which some record lacks, or
    a [TypeError] because the material of some record cannot be a dict key
    or its radius cannot be multiplied by the size factor. *)
Theorem styles_raise_for_a_reason (data : list node) (s : value) (e : exn) :
  slider_factor s = true →
  prepare_node_colors_and_sizes material_mapping material_colors
    data s = Raise e →
  (e = TypeError
   ∧ ∃ item, item ∈ data
       ∧ ((∃ material, item !! "material" = Some material
             ∧ hashable material = false)
          ∨ (∃ radius, item !! "radius" = Some radius
               ∧ py_mul radius s = Raise TypeError)))
  ∨ (∃ key, key ∈ ["material"; "radius"] ∧ e = KeyError key
       ∧ ∃ item, item ∈ data ∧ item !! key = None).
Proof.
  intros _. rewrite prepare_styles_comprehension.
  destruct (comprehension (style_of s) data) as [l|e'] eqn:Hrun; [done|].
  simpl. intros [= ->].
  apply comprehension_raise in Hrun as (item & Hitem & Hraise).
  unfold node_style, dict_get, getitem in Hraise.
  destruct (item !! "material") as [material|] eqn:Hm; simpl in Hraise;
    cycle 1.
  { simplify_eq. right. exists "material". split; [set_solver|]. eauto. }
  destruct (hashable material) eqn:Hhash; simpl in Hraise; cycle 1.
  { simplify_eq. left. split; [done|]. exists item. split; [done|].
    left. by exists material. }
  destruct (item !! "radius") as [radius|] eqn:Hr; simpl in Hraise; cycle 1.
  { simplify_eq. right. exists "radius". split; [set_solver|]. eauto. }
  destruct (py_mul radius s) as [size|e'] eqn:Hmul; simpl in Hraise; [done|].
  simplify_eq. left.
  assert (e = TypeError) as ->.
  { unfold py_mul in Hmul.
    destruct (as_int radius), (as_int s), radius, s; simpl in Hmul;
      congruence. }
  split; [done|]. exists item. split; [done|]. right. by exists radius.
Qed.

End StyleFacts.

Lemma colors_come_from_the_tables_witness :
  Forall
    (λ c, c = "purple"
          ∨ ∃ class, ({[ "WOOD" := "brown" ]} : gmap string string) !! class
                     = Some c
              ∧ (class = "UNKNOWN"
                 ∨ ∃ code, (code, class) ∈ [(VStr "A", "WOOD")]))
    ["brown"; "purple"].
Proof.
  apply (colors_come_from_the_tables [(VStr "A", "WOOD")]
           {[ "WOOD" := "brown" ]}
           (<["radius" := VInt 1]> <$> [node_1; node_2]) (VInt 50)
           ["brown"; "purple"] [VInt 50; VInt 50]).
  vm_compute. reflexivity.
Defined.

Lemma styles_read_material_and_radius_witness :
  prepare_node_colors_and_sizes [] ∅ (delete "x" <$> [node_4]) (VInt 50)
  = prepare_node_colors_and_sizes [] ∅ [node_4] (VInt 50).
Proof.
  apply (styles_read_material_and_radius [] ∅ (delete "x")).
  intros n key Hkey. apply lookup_delete_ne. set_solver.
Defined.

Lemma styles_raise_for_a_reason_witness :
  ∃ key, key ∈ ["material"; "radius"]
    ∧ ∃ item, item ∈ [node_1] ∧ item !! key = None.
Proof.
  destruct (styles_raise_for_a_reason [] ∅ [node_1] (VInt 50)
              (KeyError "radius"))
    as [(Habs & _)|(key & Hkey & _ & Hitem)].
  - vm_compute. reflexivity.
  - vm_compute. reflexivity.
  - discriminate Habs.
  - by exists key.
Defined.

(** ** Flattening the heights, then building *)

(** X14. Flattening the heights changes neither the hover texts nor the
    colours and sizes, whichever flag [adjust_node_height_data] is given. *)
Theorem adjust_height_keeps_texts_and_styles
    (material_mapping : list (value * string))
    (material_colors : gmap string string)
    (data : list node) (node_height : bool)
    (show_links show_material show_gamma_radius show_criteria : bool)
    (node_radius_size : value) :
  prepare_hover_text (adjust_node_height_data data node_height) show_links
    show_material show_gamma_radius show_criteria
  = prepare_hover_text data show_links show_material show_gamma_radius
      show_criteria
  ∧ prepare_node_colors_and_sizes material_mapping material_colors
      (adjust_node_height_data data node_height) node_radius_size
    = prepare_node_colors_and_sizes material_mapping material_colors data
        node_radius_size.
Proof.
  unfold adjust_node_height_data. destruct node_height; simpl; [done|].
  split.
  - unfold prepare_hover_text. rewrite for_each_fmap. apply for_each_ext.
    intros texts item. rewrite hover_item_fmap; [done|].
    intros key Hkey. apply lookup_insert_ne. intros <-.
    unfold hover_reads in Hkey.
    destruct show_links, show_material, show_gamma_radius, show_criteria;
      set_solver.
  - apply prepare_styles_fmap. intros n key Hkey.
    apply lookup_insert_ne. set_solver.
Qed.

Lemma flat_segments_S n :
  flat_segments (S n) = flat_segments n ++ [VInt 0; VInt 0; VNone].
Proof.
  unfold flat_segments. by rewrite replicate_S_end, join_app.
Qed.

Lemma for_each_sim {A S T} (R : S → T → Prop)
    (body : S → A → result S) (body' : T → A → result T) l :
  (∀ a b x a', x ∈ l → R a b → body a x = Ok a' →
     ∃ b', body' b x = Ok b' ∧ R a' b') →
  ∀ a b a', R a b → for_each body a l = Ok a' →
    ∃ b', for_each body' b l = Ok b' ∧ R a' b'.
Proof.
  induction l as [|x l IH]; intros Hbody a b a' HR Hrun; simpl in *.
  - simplify_eq. by exists b.
  - apply bind_Ok_inv in Hrun as (a1 & Hx & Hrest).
    destruct (Hbody a b x a1) as (b1 & Hx' & HR1); [left | done | done |].
    rewrite Hx'. simpl. apply (IH (λ a b y a' Hy, Hbody a b y a'
                                     (list_elem_of_further _ _ _ Hy))
                                 a1 b1 a' HR1 Hrest).
Qed.

Lemma visit_edge_flattened data item acc acc' edge out :
  flattened acc acc' → visit_edge data item acc edge = Ok out →
  ∃ out',
    visit_edge ((λ n, <["z" := VInt 0]> n) <$> data)
      (<["z" := VInt 0]> item) acc' edge = Ok out'
    ∧ flattened out out'.
Proof.
  destruct acc as [[xs ys] zs], acc' as [[xs' ys'] zs'].
  intros (-> & -> & n & Hlen & ->). unfold visit_edge.
  rewrite next_node_fmap by (intros m; by apply lookup_insert_ne).
  intros (o & Hfind & Hrun)%bind_Ok_inv. rewrite Hfind, bind_Ok.
  destruct o as [t|]; cbn [fmap option_fmap option_map]; rewrite bind_Ok;
    cycle 1.
  { simplify_eq. eexists. split; [done|]. repeat split. by exists n. }
  apply next_node_found in Hfind as [_ Hm].
  rewrite (matches_truthy edge t Hm) in Hrun.
  rewrite (matches_truthy edge (<["z" := VInt 0]> t)); cycle 1.
  { unfold matches in *. by rewrite lookup_insert_ne. }
  apply extend_edge_inv in Hrun as [Hkeys ->].
  destruct (Hkeys "x") as [Hix Htx]; [set_solver|].
  destruct (Hkeys "y") as [Hiy Hty]; [set_solver|].
  unfold extend_edge, getitem.
  rewrite !lookup_insert_eq, !lookup_insert_ne by done.
  rewrite (has_key_total _ _ Hix), (has_key_total _ _ Htx),
    (has_key_total _ _ Hiy), (has_key_total _ _ Hty).
  simpl. eexists. split; [done|]. repeat split.
  exists (S n). rewrite length_app, Hlen, flat_segments_S. simpl.
  split; [lia | done].
Qed.

Lemma visit_item_flattened data acc acc' item out :
  flattened acc acc' → visit_item data acc item = Ok out →
  ∃ out',
    visit_item ((λ n, <["z" := VInt 0]> n) <$> data) acc'
      (<["z" := VInt 0]> item) = Ok out'
    ∧ flattened out out'.
Proof.
  intros HR. unfold visit_item. rewrite lookup_insert_ne by done.
  destruct (item !! "edges") as [edges|]; cycle 1.
  { intros [= <-]. by exists acc'. }
  intros (es & Hiter & Hloop)%bind_Ok_inv. rewrite Hiter. simpl.
  apply (for_each_sim flattened (visit_edge data item)
           (visit_edge ((λ n, <["z" := VInt 0]> n) <$> data)
              (<["z" := VInt 0]> item)) es) with (a := acc); [|done|done].
  intros a b e a' _ Hab. by apply visit_edge_flattened.
Qed.

(** X15. If [get_edges] returns on a list, it returns on the flattened list
    too, with the same [x] and [y] sequences and with a [z] sequence of as
    many segments, each at height 0 on both ends. *)
Theorem get_edges_after_flattening (data : list node) xs ys zs :
  get_edges data = Ok (xs, ys, zs) →
  get_edges (adjust_node_height_data data false)
  = Ok (xs, ys, flat_segments (length zs `div` 3)).
Proof.
  intros Hrun. unfold adjust_node_height_data, get_edges, get_edges_over.
  cbn [negb]. rewrite for_each_fmap.
  destruct (for_each_sim flattened (visit_item data)
              (λ acc item,
                 visit_item ((λ n, <["z" := VInt 0]> n) <$> data) acc
                   (<["z" := VInt 0]> item))
              data
              (λ a b item a' _ Hab Hstep,
                 visit_item_flattened data a b item a' Hab Hstep)
              ([], [], []) ([], [], []) (xs, ys, zs))
    as ([[xs' ys'] zs'] & Hrun' & -> & -> & n & Hlen & ->).
  - repeat split. by exists 0%nat.
  - exact Hrun.
  - rewrite Hrun', Hlen.
    assert ((3 * n) `div` 3 = n)%nat as ->; [|done].
    rewrite (Nat.mul_comm 3 n). by apply Nat.div_mul.
Qed.

Lemma get_edges_after_flattening_witness :
  get_edges (adjust_node_height_data [node_1; node_3] false)
  = Ok ([VInt 7; VInt 0; VNone], [VInt 8; VInt 0; VNone],
        [VInt 0; VInt 0; VNone]).
Proof.
  apply (get_edges_after_flattening [node_1; node_3]
           [VInt 7; VInt 0; VNone] [VInt 8; VInt 0; VNone]
           [VInt 9; VInt 0; VNone]).
  vm_compute. reflexivity.
Defined.

(** ** Building from a list in two parts *)

Lemma comprehension_app {A B} (f : A → result B) l1 l2 :
  comprehension f (l1 ++ l2)
  = (ys1 ← comprehension f l1; ys2 ← comprehension f l2; Ok (ys1 ++ ys2)).
Proof.
  induction l1 as [|x l1 IH]; simpl.
  - by rewrite bind_Ok_id.
  - destruct (f x) as [y|e]; simpl; [|done]. rewrite IH.
    destruct (comprehension f l1) as [ys1|e]; simpl; [|done].
    by destruct (comprehension f l2).
Qed.

(** X16. Hover texts, colours and sizes are computed record by record: the
    result for [data1 ++ data2] is the result for [data1] followed by that
    for [data2], and an exception of either part is the exception of the
    whole, that of [data1] first. *)
Theorem texts_and_styles_of_app
    (material_mapping : list (value * string))
    (material_colors : gmap string string)
    (data1 data2 : list node)
    (show_links show_material show_gamma_radius show_criteria : bool)
    (node_radius_size : value) :
  prepare_hover_text (data1 ++ data2) show_links show_material
    show_gamma_radius show_criteria
  = (texts1 ← prepare_hover_text data1 show_links show_material
                show_gamma_radius show_criteria;
     texts2 ← prepare_hover_text data2 show_links show_material
                show_gamma_radius show_criteria;
     Ok (texts1 ++ texts2))
  ∧ prepare_node_colors_and_sizes material_mapping material_colors
      (data1 ++ data2) node_radius_size
    = (styles1 ← prepare_node_colors_and_sizes material_mapping
                   material_colors data1 node_radius_size;
       styles2 ← prepare_node_colors_and_sizes material_mapping
                   material_colors data2 node_radius_size;
       Ok (styles1.1 ++ styles2.1, styles1.2 ++ styles2.2)).
Proof.
  split.
  - rewrite !prepare_hover_text_spec. apply comprehension_app.
  - rewrite !prepare_styles_comprehension, comprehension_app.
    destruct (comprehension _ data1) as [l1|e]; simpl; [|done].
    destruct (comprehension _ data2) as [l2|e]; simpl; [|done].
    by rewrite !fmap_app.
Qed.

(** ** [plot_3d]: stages, exceptions, what is drawn *)

Section RenderingFacts.

Context (material_mapping : list (value * string)).
Context (material_colors : gmap string string).
Context (accepts : trace → bool).


(** X17. The marker symbol matters in scatter mode only: for every other
    mode, recognized or not, [plot_3d] does the same whatever symbol it is
    given. *)
Theorem symbol_matters_for_scatter_only (data : list node)
    (plot_type : string) (symbol symbol' : option string)
    (show_links show_material show_gamma_radius show_criteria : bool)
    (node_radius_size : value) (w : world) :
  plot_type ≠ "scatter" →
  plot_3d material_mapping material_colors accepts
      data plot_type symbol show_links show_material show_gamma_radius
    show_criteria node_radius_size w
  = plot_3d material_mapping material_colors accepts
      data plot_type symbol' show_links show_material show_gamma_radius
      show_criteria node_radius_size w.
Proof.
  intros Hmode. rewrite !plot_3d_gather.
  destruct (gather material_mapping material_colors data _ _ _ _ _)
    as [[[[[[xs ys] zs] edges] texts] [colors sizes]]|]; [|done].
  unfold draw, mode_traces.
  by destruct (String.eqb_spec plot_type "scatter").
Qed.

Lemma getitem_None item key :
  item !! key = None → getitem item key = Raise (KeyError key).
Proof. unfold getitem. by intros ->. Qed.

Lemma getitem_column_raise key (data : list node) item :
  item ∈ data → item !! key = None →
  comprehension (λ item, getitem item key) data = Raise (KeyError key).
Proof.
  intros Hin Hnone.
  induction Hin as [item data|item n data _ IH]; cbn [comprehension].
  - by rewrite (getitem_None item key Hnone).
  - destruct (getitem n key) as [v|e] eqn:Hn.
    + by rewrite bind_Ok, (IH Hnone).
    + by apply getitem_raise in Hn as [-> _].
Qed.

(** X18. A record without a coordinate ends [plot_3d] with a [KeyError]
    before any builder runs and before the mode is looked at: ["x"] is
    missed first, then ["y"], then ["z"]; the first log record is all that
    was written and nothing is drawn. *)
Theorem missing_coordinate_ends_plot (data : list node)
    (plot_type : string) (symbol : option string)
    (show_links show_material show_gamma_radius show_criteria : bool)
    (node_radius_size : value) (w : world) (key : string) (item : node) :
  key ∈ ["x"; "y"; "z"] →
  item ∈ data → item !! key = None →
  (∀ key', (key' = "x" ∧ key ≠ "x") ∨ (key' = "y" ∧ key = "z") →
     Forall (λ n, has_key key' n = true) data) →
  plot_3d material_mapping material_colors accepts
      data plot_type symbol show_links show_material show_gamma_radius
    show_criteria node_radius_size w
  = (Raise (KeyError key), started plot_type w).
Proof.
  rewrite !elem_of_cons, elem_of_nil.
  intros [->|[->|[->|[]]]] Hin Hnone Hbefore;
    rewrite plot_3d_gather; unfold gather.
  - by rewrite (getitem_column_raise "x" data item).
  - rewrite (getitem_column "x") by (apply Hbefore; left; by split).
    rewrite bind_Ok. by rewrite (getitem_column_raise "y" data item).
  - rewrite (getitem_column "x") by (apply Hbefore; left; by split).
    rewrite bind_Ok.
    rewrite (getitem_column "y") by (apply Hbefore; right; by split).
    rewrite bind_Ok. by rewrite (getitem_column_raise "z" data item).
Qed.





(** X20. When [plot_3d] returns it has written exactly two log records, the
    second being the success record for a recognized mode and the error
    record otherwise, and it has drawn exactly one figure for a recognized
    mode and none otherwise. *)
Theorem plot_3d_accounts (data : list node)
    (plot_type : string) (symbol : option string)
    (show_links show_material show_gamma_radius show_criteria : bool)
    (node_radius_size : value) (w w' : world) :
  plot_3d material_mapping material_colors accepts
      data plot_type symbol show_links show_material show_gamma_radius
    show_criteria node_radius_size w = (Ok tt, w') →
  if recognized plot_type then
    log w'
    = log w ++ [(INFO, "Generating 3D " +:+ plot_type +:+ " plot");
                (INFO, "3D " +:+ plot_type
                       +:+ " plot generated successfully")]
    ∧ ∃ fig, charts w' = charts w ++ [fig]
  else
    log w'
    = log w ++ [(INFO, "Generating 3D " +:+ plot_type +:+ " plot");
                (ERROR, "Invalid plot type: " +:+ plot_type)]
    ∧ charts w' = charts w.
Proof.
  rewrite plot_3d_gather.
  destruct (gather material_mapping material_colors data _ _ _ _ _)
    as [[[[[[xs ys] zs] edges] texts] [colors sizes]]|e']; [|done].
  unfold draw, started.
  destruct (recognized plot_type) eqn:Hmode.
  - destruct (mode_traces_recognized plot_type symbol xs ys zs texts colors
                sizes Hmode) as [traces ->].
    cbv zeta. destruct (forallb accepts _); [|done].
    intros [= <-]. cbn [log charts]. rewrite <- app_assoc. eauto.
  - rewrite mode_traces_unrecognized by done.
    intros [= <-]. cbn [log charts]. by rewrite <- app_assoc.
Qed.

End RenderingFacts.

Lemma symbol_matters_for_scatter_only_witness :
  plot_3d [] ∅ example_backend [node_4] "line" (Some "diamond")
    false false false false (VInt 50) (World [] [])
  = plot_3d [] ∅ example_backend [node_4] "line" None
      false false false false (VInt 50) (World [] []).
Proof. by apply symbol_matters_for_scatter_only. Defined.

Lemma missing_coordinate_ends_plot_witness :
  plot_3d [] ∅ example_backend [node_4; delete "y" node_1] "torus" None
    true true true true (VInt 50) (World [] [])
  = (Raise (KeyError "y"), started "torus" (World [] [])).
Proof.
  apply (missing_coordinate_ends_plot [] ∅ example_backend
           [node_4; delete "y" node_1] "torus" None true true true true
           (VInt 50) (World [] []) "y"
           (delete "y" node_1)).
  - set_solver.
  - set_solver.
  - reflexivity.
  - intros key' [[-> _]|[_ Habs]]; [repeat constructor | discriminate Habs].
Defined.


Lemma plot_3d_accounts_witness :
  ∃ fig,
    charts (plot_3d [] ∅ example_backend [node_4] "mesh" None
              true true true true (VInt 50) (World [] [])).2 = [] ++ [fig].
Proof.
  set (run := plot_3d [] ∅ example_backend [node_4] "mesh" None
                true true true true (VInt 50) (World [] [])).
  assert (run = (Ok tt, run.2)) as Hrun by (vm_compute; reflexivity).
  pose proof (plot_3d_accounts [] ∅ example_backend [node_4] "mesh" None
                true true true true (VInt 50) (World [] []) run.2 Hrun
              : _ ∧ ∃ fig, charts run.2 = [] ++ [fig]) as [_ Hfig].
  exact Hfig.
Defined.

Section DrawnFigures.

Context (material_mapping : list (value * string)).
Context (material_colors : gmap string string).
Context (accepts : trace → bool).


Lemma gather_inv data (f1 f2 f3 f4 : bool) s xs ys zs (edges : coords) texts
    colors sizes :
  gather material_mapping material_colors
      data f1 f2 f3 f4 s = Ok (xs, ys, zs, edges, texts, (colors, sizes)) →
  comprehension (λ item, getitem item "x") data = Ok xs
  ∧ comprehension (λ item, getitem item "y") data = Ok ys
  ∧ comprehension (λ item, getitem item "z") data = Ok zs
  ∧ (if f1 then get_edges data = Ok edges else edges = ([], [], []))
  ∧ prepare_hover_text data f1 f2 f3 f4 = Ok texts
  ∧ prepare_node_colors_and_sizes material_mapping material_colors data s
    = Ok (colors, sizes).
Proof.
  unfold gather.
  intros (xs' & Hx & Hrun)%bind_Ok_inv.
  apply bind_Ok_inv in Hrun as (ys' & Hy & Hrun).
  apply bind_Ok_inv in Hrun as (zs' & Hz & Hrun).
  apply bind_Ok_inv in Hrun as (edges' & He & Hrun).
  apply bind_Ok_inv in Hrun as (texts' & Ht & Hrun).
  apply bind_Ok_inv in Hrun as ([colors' sizes'] & Hs & Hrun).
  simplify_eq. repeat split; try done.
  destruct f1; [done | by simplify_eq].
Qed.

(** What [draw] hands to the renderer for a recognized mode. *)
Lemma draw_recognized plot_type symbol (f1 : bool) xs ys zs edges texts
    colors sizes w w' :
  recognized plot_type = true →
  draw accepts plot_type symbol f1 (xs, ys, zs, edges, texts, (colors, sizes)) w
  = (Ok tt, w') →
  ∃ traces,
    mode_traces plot_type symbol xs ys zs texts colors sizes = Some traces
    ∧ charts w'
      = charts w
        ++ [Figure (traces ++ if f1 then [edge_trace edges] else [])
              (fig_layout new_figure)].
Proof.
  intros Hmode. unfold draw.
  destruct (mode_traces_recognized plot_type symbol xs ys zs texts colors
              sizes Hmode) as [traces ->].
  cbv zeta. destruct (forallb accepts _); [|done].
  intros [= <-]. by exists traces.
Qed.

Lemma mode_traces_aligned plot_type symbol xs ys zs texts colors sizes
    traces n :
  length xs = n → length ys = n → length zs = n → length texts = n →
  length colors = n → length sizes = n →
  mode_traces plot_type symbol xs ys zs texts colors sizes = Some traces →
  Forall (aligned n) traces.
Proof.
  intros Hx Hy Hz Ht Hc Hs. unfold mode_traces.
  destruct (String.eqb plot_type "scatter").
  { intros [= <-]. by apply Forall_singleton. }
  destruct (String.eqb plot_type "surface").
  { intros [= <-]. by apply Forall_singleton. }
  destruct (String.eqb plot_type "line").
  { intros [= <-]. by apply Forall_singleton. }
  destruct (String.eqb plot_type "mesh"); [|done].
  intros [= <-]. apply Forall_cons. split; [|by apply Forall_singleton].
  simpl. rewrite length_fmap, length_seq, Hc. done.
Qed.

(** X21. Every figure [plot_3d] draws fits the records: each marker trace
    and the mesh trace have one entry per record in every coordinate, colour,
    size and text array, the mesh intensities run to one below the number of
    records, and the edge trace has three sequences of one length. *)
Theorem drawn_arrays_fit_the_records (data : list node)
    (plot_type : string) (symbol : option string)
    (show_links show_material show_gamma_radius show_criteria : bool)
    (node_radius_size : value) (w w' : world) :
  recognized plot_type = true →
  plot_3d material_mapping material_colors accepts
      data plot_type symbol show_links show_material show_gamma_radius
    show_criteria node_radius_size w = (Ok tt, w') →
  ∃ fig, charts w' = charts w ++ [fig]
    ∧ Forall (aligned (length data)) (fig_data fig).
Proof.
  intros Hmode. rewrite plot_3d_gather.
  destruct (gather material_mapping material_colors data _ _ _ _ _)
    as [[[[[[xs ys] zs] edges] texts] [colors sizes]]|e'] eqn:Hg; [|done].
  intros (traces & Htraces & Hcharts)%draw_recognized; [|done].
  apply gather_inv in Hg as (Hx & Hy & Hz & He & Ht & Hs).
  apply comprehension_lookup in Hx as [Hx _].
  apply comprehension_lookup in Hy as [Hy _].
  apply comprehension_lookup in Hz as [Hz _].
  rewrite prepare_hover_text_spec in Ht.
  apply comprehension_lookup in Ht as [Ht _].
  apply prepare_styles_lookup in Hs as (Hc & Hs & _).
  eexists. split; [exact Hcharts|]. cbn [fig_data].
  apply Forall_app. split.
  - apply (mode_traces_aligned plot_type symbol xs ys zs texts colors sizes
             traces (length data) Hx Hy Hz Ht Hc Hs Htraces).
  - destruct show_links; [|done]. apply Forall_singleton.
    destruct edges as [[ex ey] ez]. simpl.
    apply (for_each_invariant balanced (visit_item data) data
             (visit_item_balanced data) ([], [], []) (ex, ey, ez)); done.
Qed.

Lemma flat_edges (data : list node) ex ey ez :
  get_edges ((λ item, <["z" := VInt 0]> item) <$> data) = Ok (ex, ey, ez) →
  Forall (λ v, v = VInt 0 ∨ v = VNone) ez.
Proof.
  intros (pairs & Hpairs & [= _ _ ->])%get_edges_joined.
  induction Hpairs as [|[source t] pairs (Hsrc & Ht & _) _ IH]; simpl.
  - done.
  - apply list_elem_of_fmap in Hsrc as (source' & -> & _).
    apply list_elem_of_fmap in Ht as (t' & -> & _).
    rewrite !lookup_total_insert_eq.
    repeat (apply Forall_cons; split; [auto|]). exact IH.
Qed.

(** X22. With the heights flattened every height [plot_3d] draws is 0, the
    sentinels of the edge trace apart. *)
Theorem flattened_plot_is_flat (data : list node)
    (plot_type : string) (symbol : option string)
    (show_links show_material show_gamma_radius show_criteria : bool)
    (node_radius_size : value) (w w' : world) :
  recognized plot_type = true →
  plot_3d material_mapping material_colors accepts
      (adjust_node_height_data data false) plot_type symbol show_links
    show_material show_gamma_radius show_criteria node_radius_size w
  = (Ok tt, w') →
  ∃ fig, charts w' = charts w ++ [fig]
    ∧ Forall (λ t, Forall (λ v, v = VInt 0 ∨ v = VNone) (trace_z t))
        (fig_data fig).
Proof.
  intros Hmode. rewrite plot_3d_gather. unfold adjust_node_height_data.
  cbn [negb].
  destruct (gather material_mapping material_colors _ _ _ _ _ _)
    as [[[[[[xs ys] zs] edges] texts] [colors sizes]]|e'] eqn:Hg; [|done].
  intros (traces & Htraces & Hcharts)%draw_recognized; [|done].
  apply gather_inv in Hg as (_ & _ & Hz & He & _ & _).
  rewrite flat_z_column in Hz. injection Hz as <-.
  assert (Forall (λ v, v = VInt 0 ∨ v = VNone)
            (replicate (length data) (VInt 0))) as Hflat.
  { apply Forall_replicate. by left. }
  eexists. split; [exact Hcharts|]. cbn [fig_data].
  apply Forall_app. split.
  - unfold mode_traces in Htraces.
    destruct (String.eqb plot_type "scatter").
    { injection Htraces as <-. by apply Forall_singleton. }
    destruct (String.eqb plot_type "surface").
    { injection Htraces as <-. by apply Forall_singleton. }
    destruct (String.eqb plot_type "line").
    { injection Htraces as <-. by apply Forall_singleton. }
    destruct (String.eqb plot_type "mesh"); [|done].
    injection Htraces as <-.
    apply Forall_cons. split; [done | by apply Forall_singleton].
  - destruct show_links; [|done]. apply Forall_singleton.
    destruct edges as [[ex ey] ez]. simpl. by eapply flat_edges.
Qed.

End DrawnFigures.

Lemma drawn_arrays_fit_the_records_witness :
  ∃ fig,
    charts (plot_3d [] ∅ example_backend [node_4; node_4] "mesh" None
              true false false false (VInt 50) (World [] [])).2
    = [] ++ [fig]
    ∧ Forall (aligned 2) (fig_data fig).
Proof.
  set (run := plot_3d [] ∅ example_backend [node_4; node_4] "mesh" None
                true false false false (VInt 50) (World [] [])).
  assert (run = (Ok tt, run.2)) as Hrun by (vm_compute; reflexivity).
  exact (drawn_arrays_fit_the_records [] ∅ example_backend
           [node_4; node_4] "mesh" None true false false false (VInt 50)
           (World [] []) run.2 eq_refl Hrun).
Defined.

Lemma flattened_plot_is_flat_witness :
  ∃ fig,
    charts (plot_3d [] ∅ example_backend
              (adjust_node_height_data [node_4] false) "line"
              None true false false false (VInt 50) (World [] [])).2
    = [] ++ [fig]
    ∧ Forall (λ t, Forall (λ v, v = VInt 0 ∨ v = VNone) (trace_z t))
        (fig_data fig).
Proof.
  set (run := plot_3d [] ∅ example_backend
                (adjust_node_height_data [node_4] false) "line"
                None true false false false (VInt 50) (World [] [])).
  assert (run = (Ok tt, run.2)) as Hrun by (vm_compute; reflexivity).
  exact (flattened_plot_is_flat [] ∅ example_backend [node_4] "line" None
           true false false false (VInt 50) (World [] []) run.2 eq_refl Hrun).
Defined.

(** ** [main] *)

Lemma session_default_lookup key v session_state key' :
  session_default key v session_state !! key'
  = match session_state !! key' with
    | Some v' => Some v'
    | None => if decide (key = key') then Some v else None
    end.
Proof.
  unfold session_default.
  destruct (session_state !! key) as [v0|] eqn:Hkey.
  - destruct (session_state !! key') eqn:Hkey'; [done|].
    case_decide; [|done]. by simplify_eq.
  - rewrite lookup_insert. case_decide.
    + simplify_eq. by rewrite Hkey.
    + by destruct (session_state !! key').
Qed.

(** X23. The initialization of the session never replaces a setting the
    store already has, leaves every other key of the store alone, and
    leaves all nine settings present; running it again changes nothing. *)
Theorem init_session_state_keeps_settings (session_state : gmap string value) :
  (∀ key v, session_state !! key = Some v →
     init_session_state session_state !! key = Some v)
  ∧ (∀ key, key ∉ setting_keys →
       init_session_state session_state !! key = session_state !! key)
  ∧ (∀ key, key ∈ setting_keys →
       is_Some (init_session_state session_state !! key))
  ∧ init_session_state (init_session_state session_state)
    = init_session_state session_state.
Proof.
  assert (∀ st key v, st !! key = Some v →
            init_session_state st !! key = Some v) as Hkeep.
  { intros st key v Hv. unfold init_session_state.
    rewrite !session_default_lookup. by rewrite Hv. }
  assert (∀ st key, key ∈ setting_keys →
            is_Some (init_session_state st !! key)) as Hall.
  { intros st key. unfold setting_keys.
    rewrite !elem_of_cons, elem_of_nil. unfold init_session_state.
    rewrite !session_default_lookup.
    destruct (st !! key); [by eexists|].
    intros [->|[->|[->|[->|[->|[->|[->|[->|[->|[]]]]]]]]]];
      repeat (case_decide; [by eexists|]); done. }
  split; [apply Hkeep|]. split; [|split; [apply Hall|]].
  - intros key. unfold setting_keys. rewrite !not_elem_of_cons.
    intros (? & ? & ? & ? & ? & ? & ? & ? & ? & _).
    unfold init_session_state. rewrite !session_default_lookup.
    destruct (session_state !! key); [done|].
    repeat (case_decide; [by simplify_eq|]). done.
  - apply map_eq. intros key.
    destruct (init_session_state session_state !! key) as [v|] eqn:Hv.
    + by apply Hkeep.
    + unfold init_session_state at 1. rewrite !session_default_lookup, Hv.
      destruct (decide (key ∈ setting_keys)) as [Hin|Hout].
      * destruct (Hall session_state key Hin) as [v' Hv']. congruence.
      * unfold setting_keys in Hout. rewrite !not_elem_of_cons in Hout.
        destruct Hout as (? & ? & ? & ? & ? & ? & ? & ? & ? & _).
        repeat (case_decide; [by simplify_eq|]). done.
Qed.

Lemma init_session_state_keeps_settings_witness :
  init_session_state {[ "node_height" := VBool true ]} !! "node_height"
  = Some (VBool true)
  ∧ is_Some (init_session_state {[ "node_height" := VBool true ]}
             !! "graph_type").
Proof.
  destruct (init_session_state_keeps_settings
              {[ "node_height" := VBool true ]}) as (Hkeep & _ & Hall & _).
  split.
  - apply Hkeep. reflexivity.
  - apply Hall. unfold setting_keys. set_solver.
Defined.

Section MainFacts.

Context (material_mapping : list (value * string)).
Context (material_colors : gmap string string).
Context (accepts : trace → bool).

Lemma plot_with_info ss data plot_type pg r pg' :
  recognized plot_type = true →
  plot_with material_mapping material_colors accepts ss data plot_type pg
  = (r, pg') →
  ∃ added,
    log (page_world pg') = log (page_world pg) ++ added
    ∧ Forall (λ record, record.1 = INFO) added.
Proof.
  intros Hmode. unfold plot_with. rewrite plot_3d_gather.
  destruct (gather _ _ _ _ _ _ _ _)
    as [[[[[[xs ys] zs] edges] texts] [colors sizes]]|e'].
  - unfold draw, started.
    destruct (mode_traces_recognized plot_type (Some (ss_node_symbol ss))
                xs ys zs texts colors sizes Hmode) as [traces ->].
    cbv zeta. destruct (forallb accepts _).
    + intros [= <- <-]. cbn [page_world log]. rewrite <- app_assoc.
      eexists. split; [done|]. by repeat constructor.
    + intros [= <- <-]. cbn [page_world log].
      eexists. split; [done|]. by repeat constructor.
  - unfold started. intros [= <- <-]. cbn [page_world log].
    eexists. split; [done|]. by repeat constructor.
Qed.

(** X24. Whatever the settings and the records, the step of [main] that
    shows the graph never reports an invalid plot type: every record it adds
    to the log is an [INFO] record, because each graph type of the dispatch
    is passed on as a mode [plot_3d] recognizes, and any other graph type
    plots nothing. *)
Theorem main_never_passes_an_invalid_mode (ss : settings) (data : list node)
    (pg : page) r pg' :
  show_graph material_mapping material_colors accepts ss data pg = (r, pg') →
  ∃ added,
    log (page_world pg') = log (page_world pg) ++ added
    ∧ Forall (λ record, record.1 = INFO) added.
Proof.
  unfold show_graph.
  set (shown := if ss_show_table_data ss then _ else pg).
  assert (log (page_world shown) = log (page_world pg)) as <-.
  { unfold shown. by destruct (ss_show_table_data ss). }
  repeat (destruct (String.eqb (ss_graph_type ss) _);
          [by apply plot_with_info|]).
  intros [= <- <-]. exists []. by rewrite app_nil_r.
Qed.

End MainFacts.

Lemma main_never_passes_an_invalid_mode_witness :
  ∃ added,
    log (page_world
           (show_graph [] ∅ example_backend
              (Settings true false false false true false 50 "3D Mesh"
                 "circle")
              [node_4] (Page (World [] []) [])).2)
    = [] ++ added
    ∧ Forall (λ record, record.1 = INFO) added.
Proof.
  set (run := show_graph [] ∅ example_backend
                (Settings true false false false true false 50 "3D Mesh"
                   "circle")
                [node_4] (Page (World [] []) [])).
  exact (main_never_passes_an_invalid_mode [] ∅ example_backend _ _ _
           run.1 run.2 (surjective_pairing run)).
Defined.
